(** * WebGL-Experiments: a shallow embedding of the two scripts

    The repository holds two browser scripts that set up a WebGL context,
    compile a shader pair, upload a square and (in one of them) draw it:

    - [src/main.js]: compiles and links, builds [programInfo], stops there;
    - [src/unnamed/part_000]: the same, plus [randomColour], [drawScene] and
      the top-level calls to [initBuffers] and [drawScene].

    JavaScript Numbers are IEEE 754 binary64 values.  They are modelled by
    [spec_float] with the executable operations of [SpecFloat], so that
    rounding is the real one.  The graphics context is a recorder: every
    [gl.*] call is appended to a log, and whatever the context answers (compile
    status, info logs, locations) is an arbitrary function of the log so far.
    JavaScript objects live in a heap and are passed by reference. *)

From Stdlib Require Import ZArith Lia Bool List String.
From Stdlib Require Import Floats.SpecFloat.
From stdpp Require Import base gmap strings list fin_maps.
Import ListNotations.

(** ** Numbers *)

Definition Number := spec_float.

Definition prec : Z := 53.
Definition emax : Z := 1024.

Definition Nmul : Number -> Number -> Number := SFmul prec emax.
Definition Ndiv : Number -> Number -> Number := SFdiv prec emax.
Definition Nadd : Number -> Number -> Number := SFadd prec emax.
Definition Nsub : Number -> Number -> Number := SFsub prec emax.

(** An integer literal, or an integer handed over by the host. *)
Definition Number_of_Z (z : Z) : Number := binary_normalize prec emax z 0 false.

Definition NaN : Number := S754_nan.
Definition zero : Number := S754_zero false.
Definition neg_zero : Number := S754_zero true.
Definition one : Number := Eval vm_compute in Number_of_Z 1.
Definition two : Number := Eval vm_compute in Number_of_Z 2.
Definition neg_one : Number := Eval vm_compute in Number_of_Z (-1).
Definition neg_six : Number := Eval vm_compute in Number_of_Z (-6).
Definition n45 : Number := Eval vm_compute in Number_of_Z 45.
Definition n100 : Number := Eval vm_compute in Number_of_Z 100.
Definition n180 : Number := Eval vm_compute in Number_of_Z 180.
Definition n255 : Number := Eval vm_compute in Number_of_Z 255.

(** The literal [0.1]: the double nearest to one tenth. *)
Definition one_tenth : Number := Eval vm_compute in Ndiv (Number_of_Z 1) (Number_of_Z 10).

(** [Math.PI] = 0x1.921fb54442d18p+1. *)
Definition Math_PI : Number := S754_finite false 7074237752028440 (-51).

(** [Math.round]: the integer nearest to [x], ties towards +infinity;
    an [x] in [-0.5, 0) gives [-0]; integers, zeros, infinities and NaN are
    returned unchanged.  For [x = (-1)^s * m * 2^e] with [e < 0] the result is
    [floor (x + 1/2)], computed exactly on integers. *)
Definition Math_round (x : Number) : Number :=
  match x with
  | S754_finite s m e =>
      if (0 <=? e)%Z then x
      else
        binary_normalize prec emax
          ((cond_Zopp s (Z.pos m) + 2 ^ (- e - 1)) / 2 ^ (- e))%Z 0 s
  | _ => x
  end.

(** Storing a Number into a [Float32Array] element rounds it to binary32;
    the element read back is that binary32 value as a Number. *)
Definition Math_fround (x : Number) : Number :=
  match x with
  | S754_finite s m e =>
      match binary_round 24 128 s m e with
      | S754_finite s' m' e' => binary_round prec emax s' m' e'
      | y => y
      end
  | _ => x
  end.

(** What [Math.random] may return: a Number of positive sign, at least 0
    and less than 1. *)
Definition is_random_value (x : Number) : bool :=
  valid_binary prec emax x &&
  match x with
  | S754_zero s => negb s
  | S754_finite s _ _ => negb s && SFltb x one
  | _ => false
  end.

(** ** Values, objects and the heap *)

Definition Handle := nat.
Definition Ref := nat.

Inductive Value :=
| VUndefined
| VNull
| VBool (b : bool)
| VNum (n : Number)
| VInt (z : Z)       (* an integral Number: a GLint *)
| VGL (h : Handle)   (* a WebGLShader, WebGLProgram, WebGLBuffer or
                        WebGLUniformLocation *)
| VRef (l : Ref).    (* a reference to an object of the heap *)

Inductive JSObject :=
| Obj (fields : gmap string Value)
| Float32Array (elems : list Number).

(** ** The graphics context *)

(** Constants of the WebGL 1.0 interface (the script reads them off [gl]). *)
Definition VERTEX_SHADER : Z := 35633.
Definition FRAGMENT_SHADER : Z := 35632.
Definition COMPILE_STATUS : Z := 35713.
Definition LINK_STATUS : Z := 35714.
Definition ARRAY_BUFFER : Z := 34962.
Definition STATIC_DRAW : Z := 35044.
Definition DEPTH_TEST : Z := 2929.
Definition LEQUAL : Z := 515.
Definition FLOAT : Z := 5126.
Definition TRIANGLE_STRIP : Z := 5.
Definition COLOR_BUFFER_BIT : Z := 16384.
Definition DEPTH_BUFFER_BIT : Z := 256.

(** One recorded call: the method and its arguments as the script passed
    them; a [create*] call also records the object it returned. *)
Inductive GLCall :=
| GL_createShader (type : Z) (ret : Handle)
| GL_shaderSource (shader : Handle) (source : string)
| GL_compileShader (shader : Handle)
| GL_getShaderParameter (shader : Handle) (pname : Z)
| GL_getShaderInfoLog (shader : Handle)
| GL_deleteShader (shader : Handle)
| GL_createProgram (ret : Handle)
| GL_attachShader (program shader : Handle)
| GL_linkProgram (program : Handle)
| GL_getProgramParameter (program : Handle) (pname : Z)
| GL_getProgramInfoLog (program : Handle)
| GL_getAttribLocation (program : Handle) (name : string)
| GL_getUniformLocation (program : Handle) (name : string)
| GL_createBuffer (ret : Handle)
| GL_bindBuffer (target : Z) (buffer : Value)
| GL_bufferData (target : Z) (data : list Number) (usage : Z)
| GL_clearColor (r g b a : Number)
| GL_clearDepth (depth : Number)
| GL_enable (cap : Z)
| GL_depthFunc (func : Z)
| GL_clear (mask : Z)
| GL_vertexAttribPointer (index : Value) (size type : Z) (normalized : bool)
    (stride offset : Z)
| GL_enableVertexAttribArray (index : Value)
| GL_useProgram (program : Value)
| GL_uniformMatrix4fv (location : Value) (transpose : bool) (value : list Number)
| GL_uniform3f (location x y z : Value)
| GL_drawArrays (mode first count : Z).

(** What the script cannot decide itself.  The context's answers depend on
    the calls made so far and on the object asked about. *)
Record Host := mkHost {
  shader_parameter : list GLCall -> Handle -> Z -> bool;
  shader_info_log : list GLCall -> Handle -> option string;
  program_parameter : list GLCall -> Handle -> Z -> bool;
  program_info_log : list GLCall -> Handle -> option string;
  attrib_location : list GLCall -> Handle -> string -> Z;
  uniform_location : list GLCall -> Handle -> string -> option Handle;
  canvas_clientWidth : Z;
  canvas_clientHeight : Z;
  Math_random : nat -> Number;   (* the n-th draw of this run *)
  Math_tan : Number -> Number
}.

Record World := mkWorld {
  calls : list GLCall;       (* the recorded calls, oldest first *)
  next_handle : Handle;      (* the next WebGL object to be created *)
  heap : gmap Ref JSObject;
  next_ref : Ref;            (* the next heap object to be allocated *)
  console : list string;     (* what console.error printed *)
  random_draws : nat         (* how often Math.random was called *)
}.

(** ** Running a script: state and exceptions *)

Inductive JSError :=
| Error (message : string)
| TypeError (message : string).

Inductive Completion (A : Type) :=
| Normal (a : A)
| Throw (e : JSError).
Arguments Normal {A} a.
Arguments Throw {A} e.

Definition JS (A : Type) : Type := World -> Completion A * World.

Definition ret {A} (a : A) : JS A := fun w => (Normal a, w).

Definition throw {A} (e : JSError) : JS A := fun w => (Throw e, w).

Definition bind {A B} (m : JS A) (k : A -> JS B) : JS B :=
  fun w =>
    match m w with
    | (Normal a, w') => k a w'
    | (Throw e, w') => (Throw e, w')
    end.

Notation "'let*' x ':=' m 'in' k" := (bind m (fun x => k))
  (at level 10, x name, m at level 100, k at level 200).

Definition record (c : GLCall) : JS unit :=
  fun w =>
    (Normal tt,
     mkWorld (calls w ++ [c]) (next_handle w) (heap w) (next_ref w)
       (console w) (random_draws w)).

Definition fresh_handle : JS Handle :=
  fun w =>
    (Normal (next_handle w),
     mkWorld (calls w) (S (next_handle w)) (heap w) (next_ref w)
       (console w) (random_draws w)).

Definition history : JS (list GLCall) := fun w => (Normal (calls w), w).

Definition console_error (s : string) : JS unit :=
  fun w =>
    (Normal tt,
     mkWorld (calls w) (next_handle w) (heap w) (next_ref w)
       (console w ++ [s]) (random_draws w)).

(** [{ ... }] and [new Float32Array(...)]: a new object. *)
Definition alloc (o : JSObject) : JS Ref :=
  fun w =>
    (Normal (next_ref w),
     mkWorld (calls w) (next_handle w) (<[next_ref w := o]> (heap w))
       (S (next_ref w)) (console w) (random_draws w)).

Definition load (l : Ref) : JS (option JSObject) :=
  fun w => (Normal (heap w !! l), w).

Definition store (l : Ref) (o : JSObject) : JS unit :=
  fun w =>
    (Normal tt,
     mkWorld (calls w) (next_handle w) (<[l := o]> (heap w)) (next_ref w)
       (console w) (random_draws w)).

(** [v.name]: reading a property off [undefined] or [null] throws; a
    missing property reads as [undefined]. *)
Definition get_prop (v : Value) (name : string) : JS Value :=
  match v with
  | VUndefined | VNull =>
      throw (TypeError ("Cannot read properties of undefined or null: " +:+ name))
  | VRef l =>
      let* o := load l in
      match o with
      | Some (Obj fields) => ret (default VUndefined (fields !! name))
      | _ => ret VUndefined
      end
  | _ => ret VUndefined
  end.

(** The string a template literal makes of a possibly null log. *)
Definition ToString (s : option string) : string :=
  match s with
  | Some s => s
  | None => "null"
  end.

(** A uniform location as the script sees it: an object, or [null] when the
    program has no such uniform. *)
Definition location_value (l : option Handle) : Value :=
  match l with
  | Some l => VGL l
  | None => VNull
  end.

Section Program.

Context (host : Host).

(** *** The methods of [gl] *)

Definition gl_createShader (type : Z) : JS Handle :=
  let* shader := fresh_handle in
  let* _ := record (GL_createShader type shader) in
  ret shader.

Definition gl_shaderSource (shader : Handle) (source : string) : JS unit :=
  record (GL_shaderSource shader source).

Definition gl_compileShader (shader : Handle) : JS unit :=
  record (GL_compileShader shader).

Definition gl_getShaderParameter (shader : Handle) (pname : Z) : JS bool :=
  let* h := history in
  let* _ := record (GL_getShaderParameter shader pname) in
  ret (shader_parameter host h shader pname).

Definition gl_getShaderInfoLog (shader : Handle) : JS (option string) :=
  let* h := history in
  let* _ := record (GL_getShaderInfoLog shader) in
  ret (shader_info_log host h shader).

Definition gl_deleteShader (shader : Handle) : JS unit :=
  record (GL_deleteShader shader).

Definition gl_createProgram : JS Handle :=
  let* program := fresh_handle in
  let* _ := record (GL_createProgram program) in
  ret program.

Definition gl_attachShader (program shader : Handle) : JS unit :=
  record (GL_attachShader program shader).

Definition gl_linkProgram (program : Handle) : JS unit :=
  record (GL_linkProgram program).

Definition gl_getProgramParameter (program : Handle) (pname : Z) : JS bool :=
  let* h := history in
  let* _ := record (GL_getProgramParameter program pname) in
  ret (program_parameter host h program pname).

Definition gl_getProgramInfoLog (program : Handle) : JS (option string) :=
  let* h := history in
  let* _ := record (GL_getProgramInfoLog program) in
  ret (program_info_log host h program).

Definition gl_getAttribLocation (program : Handle) (name : string) : JS Value :=
  let* h := history in
  let* _ := record (GL_getAttribLocation program name) in
  ret (VInt (attrib_location host h program name)).

Definition gl_getUniformLocation (program : Handle) (name : string) : JS Value :=
  let* h := history in
  let* _ := record (GL_getUniformLocation program name) in
  ret (location_value (uniform_location host h program name)).

Definition gl_createBuffer : JS Handle :=
  let* buffer := fresh_handle in
  let* _ := record (GL_createBuffer buffer) in
  ret buffer.

Definition gl_bindBuffer (target : Z) (buffer : Value) : JS unit :=
  record (GL_bindBuffer target buffer).

(** [data] is a [Float32Array]; the context is handed its elements. *)
Definition gl_bufferData (target : Z) (data : Ref) (usage : Z) : JS unit :=
  let* o := load data in
  match o with
  | Some (Float32Array elems) => record (GL_bufferData target elems usage)
  | _ => throw (TypeError "bufferData: not a buffer source")
  end.

Definition gl_clearColor (r g b a : Number) : JS unit :=
  record (GL_clearColor r g b a).

Definition gl_clearDepth (depth : Number) : JS unit :=
  record (GL_clearDepth depth).

Definition gl_enable (cap : Z) : JS unit := record (GL_enable cap).

Definition gl_depthFunc (func : Z) : JS unit := record (GL_depthFunc func).

Definition gl_clear (mask : Z) : JS unit := record (GL_clear mask).

Definition gl_vertexAttribPointer (index : Value) (size type : Z)
    (normalized : bool) (stride offset : Z) : JS unit :=
  record (GL_vertexAttribPointer index size type normalized stride offset).

Definition gl_enableVertexAttribArray (index : Value) : JS unit :=
  record (GL_enableVertexAttribArray index).

Definition gl_useProgram (program : Value) : JS unit :=
  record (GL_useProgram program).

Definition gl_uniformMatrix4fv (location : Value) (transpose : bool)
    (value : Ref) : JS unit :=
  let* o := load value in
  match o with
  | Some (Float32Array elems) =>
      record (GL_uniformMatrix4fv location transpose elems)
  | _ => throw (TypeError "uniformMatrix4fv: not a Float32Array")
  end.

Definition gl_uniform3f (location x y z : Value) : JS unit :=
  record (GL_uniform3f location x y z).

Definition gl_drawArrays (mode first count : Z) : JS unit :=
  record (GL_drawArrays mode first count).

(** [gl.canvas.clientWidth / gl.canvas.clientHeight] *)
Definition canvas_aspect : Number :=
  Ndiv (Number_of_Z (canvas_clientWidth host))
       (Number_of_Z (canvas_clientHeight host)).

(** [Math.random()] *)
Definition Math_random_call : JS Number :=
  fun w =>
    (Normal (Math_random host (random_draws w)),
     mkWorld (calls w) (next_handle w) (heap w) (next_ref w)
       (console w) (S (random_draws w))).

(** [new Float32Array(positions)] for an array literal of Numbers. *)
Definition new_Float32Array (elems : list Number) : JS Ref :=
  alloc (Float32Array (map Math_fround elems)).

(** *** The matrix library (gl-matrix) *)

(** An element read; out of range it is [undefined], NaN in arithmetic. *)
Definition elem (a : list Number) (i : nat) : Number := default NaN (a !! i).

(** Modelled from the spec: the 4x4 identity matrix that [mat4.create] of
    the gl-matrix library returns ([src/] does not hold the library);
    sixteen elements in column-major order. *)
Definition mat4_identity : list Number :=
  [one; zero; zero; zero;
   zero; one; zero; zero;
   zero; zero; one; zero;
   zero; zero; zero; one].

(** Modelled from the spec: [mat4.create] of the gl-matrix library, a new
    [Float32Array] holding the identity. *)
Definition mat4_create : JS Ref := alloc (Float32Array mat4_identity).

(** Modelled from the spec: one element of the fourth column of
    [a * T(x, y, z)], as [mat4.translate] of the gl-matrix library computes
    it: [a[i]*x + a[4+i]*y + a[8+i]*z + a[12+i]], summed left to right in
    binary64. *)
Definition translate_elem (a : list Number) (x y z : Number) (i : nat) : Number :=
  Nadd (Nadd (Nadd (Nmul (elem a i) x) (Nmul (elem a (4 + i)) y))
             (Nmul (elem a (8 + i)) z))
       (elem a (12 + i)).

(** Modelled from the spec: the sixteen elements [mat4.translate] of the
    gl-matrix library leaves in [out]: the first three columns of [a], then
    the translated fourth column, each rounded to binary32 when stored. *)
Definition translate_elems (a : list Number) (x y z : Number) : list Number :=
  map Math_fround
    [elem a 0; elem a 1; elem a 2; elem a 3;
     elem a 4; elem a 5; elem a 6; elem a 7;
     elem a 8; elem a 9; elem a 10; elem a 11;
     translate_elem a x y z 0; translate_elem a x y z 1;
     translate_elem a x y z 2; translate_elem a x y z 3].

(** Modelled from the spec: [mat4.translate(out, a, [x, y, z])] of the
    gl-matrix library, which overwrites [out] with [a] translated; [out] and
    [a] may be the same array, as they are in [drawScene]. *)
Definition mat4_translate (out a : Ref) (x y z : Number) : JS unit :=
  let* src := load a in
  let* dst := load out in
  match src, dst with
  | Some (Float32Array elems), Some (Float32Array _) =>
      store out (Float32Array (translate_elems elems x y z))
  | _, _ => ret tt
  end.

(** Modelled from the spec: the elements of the standard perspective matrix
    that [mat4.perspective] of the gl-matrix library computes; the tangent is
    the host's [Math.tan]. *)
Definition perspective_elems (fovy aspect near far : Number) : list Number :=
  let f := Ndiv one (Math_tan host (Ndiv fovy two)) in
  let nf := Ndiv one (Nsub near far) in
  map Math_fround
    [Ndiv f aspect; zero; zero; zero;
     zero; f; zero; zero;
     zero; zero; Nmul (Nadd far near) nf; neg_one;
     zero; zero; Nmul (Nmul (Nmul two far) near) nf; zero].

(** Modelled from the spec: [mat4.perspective(out, fovy, aspect, near, far)]
    of the gl-matrix library, which overwrites [out]. *)
Definition mat4_perspective (out : Ref) (fovy aspect near far : Number) : JS unit :=
  let* dst := load out in
  match dst with
  | Some (Float32Array _) =>
      store out (Float32Array (perspective_elems fovy aspect near far))
  | _ => ret tt
  end.

(** *** [randomColour] (part_000, lines 1-10) *)

Definition randomColour : JS Ref :=
  let o := Math_round in
  let r := Math_random_call in
  let s := n255 in
  let* r1 := r in
  let* r2 := r in
  let* r3 := r in
  alloc (Obj (<["R" := VNum (o (Ndiv (Nmul r1 s) n255))]>
             (<["G" := VNum (o (Ndiv (Nmul r2 s) n255))]>
             (<["B" := VNum (o (Ndiv (Nmul r3 s) n255))]> ∅)))).

(** *** [loadShaders] (the same text in both scripts) *)

Definition loadShaders (type : Z) (source : string) : JS Handle :=
  let* shader := gl_createShader type in
  let* _ := gl_shaderSource shader source in
  let* _ := gl_compileShader shader in
  let* compiled := gl_getShaderParameter shader COMPILE_STATUS in
  if negb compiled then
    let* log := gl_getShaderInfoLog shader in
    let error := "An error occured compiling the shaders: " +:+ ToString log in
    let* _ := console_error error in
    let* _ := gl_deleteShader shader in
    throw (Error error)
  else ret shader.

(** *** [initShaderProgram] (the same text in both scripts) *)

Definition initShaderProgram (vertexShaderSource fragmentShaderSource : string)
    : JS Handle :=
  let* vertexShader := loadShaders VERTEX_SHADER vertexShaderSource in
  let* fragmentShader := loadShaders FRAGMENT_SHADER fragmentShaderSource in
  let* shaderProgram := gl_createProgram in
  let* _ := gl_attachShader shaderProgram vertexShader in
  let* _ := gl_attachShader shaderProgram fragmentShader in
  let* _ := gl_linkProgram shaderProgram in
  let* linked := gl_getProgramParameter shaderProgram LINK_STATUS in
  if negb linked then
    let* log := gl_getProgramInfoLog shaderProgram in
    let error := "Unable to initialize the shader program: " +:+ ToString log in
    let* _ := console_error error in
    throw (Error error)
  else ret shaderProgram.

(** *** [initBuffers] (the same text in both scripts) *)

Definition positions : list Number :=
  [neg_one; one; one; one; neg_one; neg_one; one; neg_one].

Definition initBuffers : JS Ref :=
  let* positionBuffer := gl_createBuffer in
  let* _ := gl_bindBuffer ARRAY_BUFFER (VGL positionBuffer) in
  let* data := new_Float32Array positions in
  let* _ := gl_bufferData ARRAY_BUFFER data STATIC_DRAW in
  alloc (Obj {["position" := VGL positionBuffer]}).

(** *** [drawScene] (part_000, lines 147-216) *)

Definition drawScene (programInfo buffers : Value) : JS unit :=
  let* _ := gl_clearColor zero zero zero one in
  let* _ := gl_clearDepth one in
  let* _ := gl_enable DEPTH_TEST in
  let* _ := gl_depthFunc LEQUAL in
  let* _ := gl_clear (Z.lor COLOR_BUFFER_BIT DEPTH_BUFFER_BIT) in
  let fieldOfView := Ndiv (Nmul n45 Math_PI) n180 in
  let aspect := canvas_aspect in
  let zNear := one_tenth in
  let zFar := n100 in
  let* projectionMatrix := mat4_create in
  let* _ := mat4_perspective projectionMatrix fieldOfView aspect zNear zFar in
  let* modelViewMatrix := mat4_create in
  let* _ := mat4_translate modelViewMatrix modelViewMatrix neg_zero zero neg_six in
  let numComponents := 2%Z in
  let type := FLOAT in
  let normalise := false in
  let stride := 0%Z in
  let offset := 0%Z in
  let* position := get_prop buffers "position" in
  let* _ := gl_bindBuffer ARRAY_BUFFER position in
  let* attribLocations := get_prop programInfo "attribLocations" in
  let* vertexPosition := get_prop attribLocations "vertexPosition" in
  let* _ := gl_vertexAttribPointer vertexPosition numComponents type normalise
              stride offset in
  let* attribLocations' := get_prop programInfo "attribLocations" in
  let* vertexPosition' := get_prop attribLocations' "vertexPosition" in
  let* _ := gl_enableVertexAttribArray vertexPosition' in
  let* program := get_prop programInfo "program" in
  let* _ := gl_useProgram program in
  let* uniformLocations := get_prop programInfo "uniformLocations" in
  let* projectionLocation := get_prop uniformLocations "projectionMatrix" in
  let* _ := gl_uniformMatrix4fv projectionLocation false projectionMatrix in
  let* uniformLocations' := get_prop programInfo "uniformLocations" in
  let* modelViewLocation := get_prop uniformLocations' "modelViewMatrix" in
  let* _ := gl_uniformMatrix4fv modelViewLocation false modelViewMatrix in
  let* colour := randomColour in
  let* uniformLocations'' := get_prop programInfo "uniformLocations" in
  let* colourLocation := get_prop uniformLocations'' "colorMatrix" in
  let* R := get_prop (VRef colour) "R" in
  let* G := get_prop (VRef colour) "G" in
  let* B := get_prop (VRef colour) "B" in
  let* _ := gl_uniform3f colourLocation R G B in
  gl_drawArrays TRIANGLE_STRIP 0 4.

(** *** The shader sources and the top level of [src/unnamed/part_000] *)

Definition vertexShader : string := "
    attribute vec4 aVertexPosition;

    uniform mat4 uModelViewMatrix;
    uniform mat4 uProjectionMatrix;

    void main() {
      gl_Position = uProjectionMatrix * uModelViewMatrix * aVertexPosition;
    }
".

Definition fragmentShader : string := "
    precision mediump float;
    uniform vec3 colorMatrix;
    void main() {
        gl_FragColor = vec4(colorMatrix, 1.0);
    }
".

(** Lines 218-236: initialise, store the locations, make the buffer, draw. *)
Definition script : JS unit :=
  let* shaderProgram := initShaderProgram vertexShader fragmentShader in
  let* vertexPosition := gl_getAttribLocation shaderProgram "aVertexPosition" in
  let* attribLocations := alloc (Obj {["vertexPosition" := vertexPosition]}) in
  let* projectionMatrix := gl_getUniformLocation shaderProgram "uProjectionMatrix" in
  let* modelViewMatrix := gl_getUniformLocation shaderProgram "uModelViewMatrix" in
  let* colorMatrix := gl_getUniformLocation shaderProgram "colorMatrix" in
  let* uniformLocations :=
    alloc (Obj (<["projectionMatrix" := projectionMatrix]>
               (<["modelViewMatrix" := modelViewMatrix]>
               (<["colorMatrix" := colorMatrix]> ∅)))) in
  let* programInfo :=
    alloc (Obj (<["program" := VGL shaderProgram]>
               (<["attribLocations" := VRef attribLocations]>
               (<["uniformLocations" := VRef uniformLocations]> ∅)))) in
  let* buffers := initBuffers in
  drawScene (VRef programInfo) (VRef buffers).

(** *** The top level of [src/main.js] *)

(** The vertex shader source of [src/main.js] is the one above; its fragment
    shader has no colour uniform. *)
Definition main_fragmentShader : string := "
    void main() {
        gl_FragColor = vec4(1.0, 1.0, 1.0, 1.0);
    }
".

(** Lines 128-141: initialise and store the locations; the file ends there. *)
Definition main_script : JS unit :=
  let* shaderProgram := initShaderProgram vertexShader main_fragmentShader in
  let* vertexPosition := gl_getAttribLocation shaderProgram "aVertexPosition" in
  let* attribLocations := alloc (Obj {["vertexPosition" := vertexPosition]}) in
  let* projectionMatrix := gl_getUniformLocation shaderProgram "uProjectionMatrix" in
  let* modelViewMatrix := gl_getUniformLocation shaderProgram "uModelViewMatrix" in
  let* uniformLocations :=
    alloc (Obj (<["projectionMatrix" := projectionMatrix]>
               (<["modelViewMatrix" := modelViewMatrix]> ∅))) in
  let* programInfo :=
    alloc (Obj (<["program" := VGL shaderProgram]>
               (<["attribLocations" := VRef attribLocations]>
               (<["uniformLocations" := VRef uniformLocations]> ∅)))) in
  ret tt.

End Program.

(** ** Reading the log *)

Definition is_drawArrays (c : GLCall) : bool :=
  match c with
  | GL_drawArrays _ _ _ => true
  | _ => false
  end.

Definition is_deleteShader (c : GLCall) : bool :=
  match c with
  | GL_deleteShader _ => true
  | _ => false
  end.

Definition is_createBuffer (c : GLCall) : bool :=
  match c with
  | GL_createBuffer _ => true
  | _ => false
  end.

Definition is_uniformMatrix4fv (c : GLCall) : bool :=
  match c with
  | GL_uniformMatrix4fv _ _ _ => true
  | _ => false
  end.

(** The calls of a log that satisfy [p], in order. *)
Fixpoint select (p : GLCall -> bool) (l : list GLCall) : list GLCall :=
  match l with
  | [] => []
  | c :: l' => if p c then c :: select p l' else select p l'
  end.

(** The calls a computation adds to the log when run from [w]. *)
Definition issued {A} (m : JS A) (w : World) : list GLCall :=
  drop (length (calls w)) (calls (snd (m w))).

(** A channel value that is exactly 0 or exactly 1. *)
Definition zero_or_one (v : Value) : Prop := v = VNum zero \/ v = VNum one.

(** Every colour upload of a log has channels that are exactly 0 or 1. *)
Definition colour_uploads_binary (l : list GLCall) : Prop :=
  forall location x y z,
    In (GL_uniform3f location x y z) l ->
    zero_or_one x /\ zero_or_one y /\ zero_or_one z.

(** The channel [randomColour] makes of the [n]-th random draw. *)
Definition channel (host : Host) (n : nat) : Value :=
  VNum (Math_round (Ndiv (Nmul (Math_random host n) n255) n255)).

(** The five calls every [drawScene] starts with. *)
Definition clear_calls : list GLCall :=
  [GL_clearColor zero zero zero one;
   GL_clearDepth one;
   GL_enable DEPTH_TEST;
   GL_depthFunc LEQUAL;
   GL_clear (Z.lor COLOR_BUFFER_BIT DEPTH_BUFFER_BIT)].

(** The calls of a [drawScene] that runs to its end, given what it reads
    off [buffers] and [programInfo] and how many random draws came before. *)
Definition drawScene_calls (host : Host) (draws : nat)
    (position vertexPosition vertexPosition' program projectionLocation
     modelViewLocation colourLocation : Value) : list GLCall :=
  clear_calls ++
  [GL_bindBuffer ARRAY_BUFFER position;
   GL_vertexAttribPointer vertexPosition 2 FLOAT false 0 0;
   GL_enableVertexAttribArray vertexPosition';
   GL_useProgram program;
   GL_uniformMatrix4fv projectionLocation false
     (perspective_elems host (Ndiv (Nmul n45 Math_PI) n180) (canvas_aspect host)
        one_tenth n100);
   GL_uniformMatrix4fv modelViewLocation false
     (translate_elems mat4_identity neg_zero zero neg_six);
   GL_uniform3f colourLocation (channel host draws) (channel host (S draws))
     (channel host (S (S draws)));
   GL_drawArrays TRIANGLE_STRIP 0 4].

(** The identity matrix with [-6] as the z component of its translation
    column (element 14 in column-major order). *)
Definition identity_translated_z : list Number := <[14 := neg_six]> mat4_identity.

(** The calls of a [loadShaders] up to the status query, and of an
    [initShaderProgram] from [createProgram] up to the status query. *)
Definition compile_calls (type : Z) (shader : Handle) (source : string)
    : list GLCall :=
  [GL_createShader type shader; GL_shaderSource shader source;
   GL_compileShader shader].

Definition link_calls (program vertex fragment : Handle) : list GLCall :=
  [GL_createProgram program; GL_attachShader program vertex;
   GL_attachShader program fragment; GL_linkProgram program].

(** The calls the top level of part_000 makes between a successful
    [initShaderProgram] (program [p]) and [drawScene]; [b] is the buffer. *)
Definition setup_calls (p b : Handle) : list GLCall :=
  [GL_getAttribLocation p "aVertexPosition";
   GL_getUniformLocation p "uProjectionMatrix";
   GL_getUniformLocation p "uModelViewMatrix";
   GL_getUniformLocation p "colorMatrix";
   GL_createBuffer b;
   GL_bindBuffer ARRAY_BUFFER (VGL b);
   GL_bufferData ARRAY_BUFFER positions STATIC_DRAW].

(** Heap references are handed out in order: nothing lives at or above
    [next_ref]. *)
Definition heap_closed (w : World) : Prop :=
  forall l, next_ref w <= l -> heap w !! l = None.

(** The fresh world a page load starts from. *)
Definition initial_world : World := mkWorld [] 0 ∅ 0 [] 0.

(** A host on which everything compiles and links, with a short cycle of
    random draws: the largest double below 1, zero, and one third. *)
Definition friendly_host : Host :=
  mkHost (fun _ _ _ => true) (fun _ _ => Some EmptyString)
         (fun _ _ _ => true) (fun _ _ => Some EmptyString)
         (fun _ _ _ => 0%Z) (fun _ h _ => Some h)
         640 480
         (fun n => match n mod 3 with
                   | 0 => S754_finite false 9007199254740991 (-53)
                   | 1 => zero
                   | _ => S754_finite false 6004799503160661 (-54)
                   end)
         (fun x => x).

(** A host whose compiler rejects every shader. *)
Definition rejecting_host : Host :=
  mkHost (fun _ _ _ => false) (fun _ _ => Some "ERROR: 0:1: syntax error")
         (fun _ _ _ => true) (fun _ _ => Some EmptyString)
         (fun _ _ _ => 0%Z) (fun _ h _ => Some h)
         640 480 (fun _ => zero) (fun x => x).

(** A host whose compiler accepts the first shader object only. *)
Definition fragment_rejecting_host : Host :=
  mkHost (fun _ h _ => Nat.eqb h 0) (fun _ _ => Some "ERROR: 0:3: undeclared identifier")
         (fun _ _ _ => true) (fun _ _ => Some EmptyString)
         (fun _ _ _ => 0%Z) (fun _ h _ => Some h)
         640 480 (fun _ => zero) (fun x => x).

(** A host that compiles both shaders and fails to link them. *)
Definition unlinking_host : Host :=
  mkHost (fun _ _ _ => true) (fun _ _ => Some EmptyString)
         (fun _ _ _ => false) (fun _ _ => Some "varyings do not match")
         (fun _ _ _ => 0%Z) (fun _ h _ => Some h)
         640 480 (fun _ => zero) (fun x => x).

(** A world in which [programInfo] (at reference 2) and [buffers] (at
    reference 4) exist, as the top level of part_000 builds them: shaders 0
    and 1, program 2, buffer 3. *)
Definition ready_world : World :=
  mkWorld [] 4
    (<[4 := Obj {["position" := VGL 3]}]>
    (<[3 := Float32Array positions]>
    (<[2 := Obj (<["program" := VGL 2]>
                (<["attribLocations" := VRef 0]>
                (<["uniformLocations" := VRef 1]> ∅)))]>
    (<[1 := Obj (<["projectionMatrix" := VGL 10]>
                (<["modelViewMatrix" := VGL 11]>
                (<["colorMatrix" := VGL 12]> ∅)))]>
    (<[0 := Obj {["vertexPosition" := VInt 0]}]> ∅)))))
    5 [] 0.

(** ** Further vocabulary for the properties below *)

(** The Number one half. *)
Definition half : Number := S754_finite false 4503599627370496 (-53).

(** The largest Number below one half. *)
Definition below_half : Number := S754_finite false 9007199254740991 (-54).

(** A channel as a fair coin: 1 when the draw is at least one half, 0
    otherwise. *)
Definition coin (x : Number) : Number := if SFleb half x then one else zero.

(** [undefined] and [null], the values no property can be read off. *)
Definition nullish (v : Value) : bool :=
  match v with
  | VUndefined | VNull => true
  | _ => false
  end.

(** A property of an object's field table as a read sees it. *)
Definition field (fields : gmap string Value) (name : string) : Value :=
  default VUndefined (fields !! name).

Definition is_createShader (c : GLCall) : bool :=
  match c with
  | GL_createShader _ _ => true
  | _ => false
  end.

Definition is_createProgram (c : GLCall) : bool :=
  match c with
  | GL_createProgram _ => true
  | _ => false
  end.

Definition is_uniform3f (c : GLCall) : bool :=
  match c with
  | GL_uniform3f _ _ _ _ => true
  | _ => false
  end.

(** The texts the two error messages start with. *)
Definition compile_error_prefix : string :=
  "An error occured compiling the shaders: ".

Definition link_error_prefix : string :=
  "Unable to initialize the shader program: ".

(** The message of the [TypeError] a failed property read throws. *)
Definition read_error (name : string) : JSError :=
  TypeError ("Cannot read properties of undefined or null: " +:+ name).

(** A small host-independent check of the Number model. *)
Example Math_round_half : Math_round (S754_finite false 4503599627370496 (-53)) = one.
Proof. reflexivity. Qed.

Example Math_round_minus_half :
  Math_round (S754_finite true 4503599627370496 (-53)) = neg_zero.
Proof. reflexivity. Qed.

Example Math_round_below_half :
  Math_round (S754_finite false 4503599627370495 (-53)) = zero.
Proof. reflexivity. Qed.

Example Math_fround_one_tenth :
  Math_fround one_tenth = S754_finite false 7205759511166976 (-56).
Proof. reflexivity. Qed.

(** A full page load of part_000 on the friendly host: twenty calls before
    [drawScene], thirteen in it, the last one the draw. *)
Example script_on_friendly_host :
  fst (script friendly_host initial_world) = Normal tt /\
  length (calls (snd (script friendly_host initial_world))) = 33 /\
  last (calls (snd (script friendly_host initial_world)))
    = Some (GL_drawArrays TRIANGLE_STRIP 0 4).
Proof. vm_compute. auto. Qed.

Example drawScene_on_ready_world :
  drawScene friendly_host (VRef 2) (VRef 4) ready_world =
  (Normal tt,
   mkWorld
     (drawScene_calls friendly_host 0 (VGL 3) (VInt 0) (VInt 0) (VGL 2)
        (VGL 10) (VGL 11) (VGL 12))
     4
     (<[7 := Obj (<["R" := VNum one]> (<["G" := VNum zero]> (<["B" := VNum zero]> ∅)))]>
     (<[6 := Float32Array identity_translated_z]>
     (<[5 := Float32Array
               (perspective_elems friendly_host (Ndiv (Nmul n45 Math_PI) n180)
                  (canvas_aspect friendly_host) one_tenth n100)]>
        (heap ready_world))))
     8 [] 3).
Proof. vm_compute. reflexivity. Qed.

Example drawScene_without_arguments :
  drawScene friendly_host VUndefined VUndefined initial_world =
  (Throw (TypeError "Cannot read properties of undefined or null: position"),
   mkWorld clear_calls 0
     (<[1 := Float32Array identity_translated_z]>
     (<[0 := Float32Array
               (perspective_elems friendly_host (Ndiv (Nmul n45 Math_PI) n180)
                  (canvas_aspect friendly_host) one_tenth n100)]> ∅))
     2 [] 0).
Proof. vm_compute. reflexivity. Qed.

Example main_script_on_friendly_host :
  fst (main_script friendly_host initial_world) = Normal tt /\
  length (calls (snd (main_script friendly_host initial_world))) = 16.
Proof. vm_compute. auto. Qed.

Example loadShaders_on_rejecting_host :
  loadShaders rejecting_host VERTEX_SHADER "void main() {" initial_world =
  (Throw (Error "An error occured compiling the shaders: ERROR: 0:1: syntax error"),
   mkWorld
     [GL_createShader VERTEX_SHADER 0; GL_shaderSource 0 "void main() {";
      GL_compileShader 0; GL_getShaderParameter 0 COMPILE_STATUS;
      GL_getShaderInfoLog 0; GL_deleteShader 0]
     1 ∅ 0
     ["An error occured compiling the shaders: ERROR: 0:1: syntax error"] 0).
Proof. vm_compute. reflexivity. Qed.

(** ** Rounding: how far [binary_round_aux] can move a value *)

Section Rounding.

Local Open Scope Z_scope.

Lemma digits2_pos_bounds (p : positive) :
  2 ^ (Z.pos (digits2_pos p) - 1) <= Z.pos p < 2 ^ Z.pos (digits2_pos p).
Proof.
  induction p as [p IH | p IH |]; cbn [digits2_pos].
  - rewrite Pos2Z.inj_succ, (Pos2Z.inj_xI p).
    replace (Z.succ (Z.pos (digits2_pos p)) - 1)
      with (Z.succ (Z.pos (digits2_pos p) - 1)) by lia.
    rewrite !Z.pow_succ_r by lia.
    generalize dependent (2 ^ (Z.pos (digits2_pos p) - 1)).
    generalize dependent (2 ^ (Z.pos (digits2_pos p))). intros; lia.
  - rewrite Pos2Z.inj_succ, (Pos2Z.inj_xO p).
    replace (Z.succ (Z.pos (digits2_pos p)) - 1)
      with (Z.succ (Z.pos (digits2_pos p) - 1)) by lia.
    rewrite !Z.pow_succ_r by lia.
    generalize dependent (2 ^ (Z.pos (digits2_pos p) - 1)).
    generalize dependent (2 ^ (Z.pos (digits2_pos p))). intros; lia.
  - cbn. lia.
Qed.

Lemma Zdigits2_bound (m k : Z) :
  0 <= m -> m < 2 ^ k -> Zdigits2 m <= Z.max 0 k.
Proof.
  intros Hm Hlt. destruct m as [| p | p]; cbn [Zdigits2]; [lia | | lia].
  pose proof (digits2_pos_bounds p) as [Hlo _].
  destruct (Z.le_gt_cases (Z.pos (digits2_pos p)) k) as [|Hgt]; [lia|].
  exfalso. assert (2 ^ k <= 2 ^ (Z.pos (digits2_pos p) - 1)).
  { apply Z.pow_le_mono_r; lia. }
  lia.
Qed.

(** One right shift halves the mantissa. *)
Lemma shr_1_m (r : shr_record) :
  0 <= shr_m r -> shr_m (shr_1 r) = shr_m r / 2.
Proof.
  destruct r as [m r s]; cbn [shr_m shr_1].
  destruct m as [| p | p]; [reflexivity | | lia].
  intros _. destruct p as [p | p |]; cbn [shr_m].
  - apply (Z.div_unique (Z.pos p~1) 2 (Z.pos p) 1); lia.
  - apply (Z.div_unique (Z.pos p~0) 2 (Z.pos p) 0); lia.
  - reflexivity.
Qed.

Lemma iter_pos_shr_1_m (p : positive) : forall r : shr_record,
  0 <= shr_m r -> shr_m (SpecFloat.iter_pos shr_1 p r) = shr_m r / 2 ^ Z.pos p.
Proof.
  induction p as [p IH | p IH |]; intros r Hr; cbn [SpecFloat.iter_pos].
  - assert (H1 : 0 <= shr_m (shr_1 r))
      by (rewrite shr_1_m by assumption; apply Z.div_pos; lia).
    assert (H2 : 0 <= shr_m (SpecFloat.iter_pos shr_1 p (shr_1 r)))
      by (rewrite IH by assumption; apply Z.div_pos; lia).
    rewrite !IH, shr_1_m by assumption.
    rewrite !Z.div_div by lia.
    f_equal. replace (Z.pos p~1) with (1 + Z.pos p + Z.pos p) by lia.
    rewrite !Z.pow_add_r, Z.pow_1_r by lia. ring.
  - assert (H2 : 0 <= shr_m (SpecFloat.iter_pos shr_1 p r))
      by (rewrite IH by assumption; apply Z.div_pos; lia).
    rewrite !IH by assumption.
    rewrite !Z.div_div by lia.
    f_equal. replace (Z.pos p~0) with (Z.pos p + Z.pos p) by lia.
    rewrite Z.pow_add_r by lia. ring.
  - rewrite shr_1_m by assumption. reflexivity.
Qed.

(** [shr_fexp] moves the exponent up to the format's and divides the
    mantissa by the matching power of two. *)
Lemma shr_fexp_spec (m e : Z) (l : location) :
  0 <= m ->
  let e' := Z.max e (fexp prec emax (Zdigits2 m + e)) in
  shr_fexp prec emax m e l = (fst (shr_fexp prec emax m e l), e') /\
  shr_m (fst (shr_fexp prec emax m e l)) = m / 2 ^ (e' - e).
Proof.
  intros Hm e'. unfold shr_fexp, shr.
  assert (Hrec : shr_m (shr_record_of_loc m l) = m)
    by (destruct l as [|[]]; reflexivity).
  destruct (fexp prec emax (Zdigits2 m + e) - e) as [| n | n] eqn:Hn; cbn [fst].
  - replace e' with e by lia. rewrite Z.sub_diag, Z.div_1_r. auto.
  - replace e' with (e + Z.pos n) by lia. split; [reflexivity|].
    rewrite iter_pos_shr_1_m by lia. rewrite Hrec. f_equal. f_equal. lia.
  - replace e' with e by lia. rewrite Z.sub_diag, Z.div_1_r. auto.
Qed.

Lemma round_nearest_even_bounds (m : Z) (l : location) :
  m <= round_nearest_even m l <= m + 1.
Proof.
  destruct l as [|[]]; cbn [round_nearest_even]; try lia.
  destruct (Z.even m); lia.
Qed.

Lemma fexp_le (m e t k : Z) :
  0 < t < 2 ^ 53 -> -1074 <= k -> e <= k ->
  0 <= m <= t * 2 ^ (k - e) ->
  fexp prec emax (Zdigits2 m + e) <= k.
Proof.
  intros Ht Hk He Hm. unfold fexp, emin, prec, emax.
  assert (Hp : 0 < 2 ^ (k - e)) by (apply Z.pow_pos_nonneg; lia).
  assert (Hlt : m < 2 ^ (53 + (k - e))).
  { rewrite Z.pow_add_r by lia. nia. }
  pose proof (Zdigits2_bound m _ (proj1 Hm) Hlt). lia.
Qed.

(** Rounding is monotone against a threshold [t * 2^k] of at most 53
    significant bits: a non-negative value below the threshold rounds to
    zero or to a finite Number of the same sign that is at most the
    threshold.  (The value rounded is [mx * 2^ex] plus the fraction [lx]
    stands for, so it lies in [[mx, mx+1) * 2^ex].) *)
Lemma binary_round_aux_bound (t k : Z) (sx : bool) (mx ex : Z) (lx : location) :
  0 < t < 2 ^ 53 -> -1074 <= k <= 971 ->
  0 <= mx -> ex <= k -> mx < t * 2 ^ (k - ex) ->
  binary_round_aux prec emax sx mx ex lx = S754_zero sx \/
  exists m e, binary_round_aux prec emax sx mx ex lx = S754_finite sx m e /\
              e <= k /\ Z.pos m <= t * 2 ^ (k - e).
Proof.
  intros Ht Hk Hmx Hex Hlt. unfold binary_round_aux.
  destruct (shr_fexp_spec mx ex lx Hmx) as [E1 M1]. cbv zeta in E1, M1.
  set (e1 := Z.max ex (fexp prec emax (Zdigits2 mx + ex))) in *.
  rewrite E1. set (r1 := fst (shr_fexp prec emax mx ex lx)) in *.
  assert (He1 : e1 <= k).
  { pose proof (fexp_le mx ex t k Ht (proj1 Hk) Hex ltac:(lia)). lia. }
  assert (Hex1 : ex <= e1) by lia.
  assert (Hpow : 2 ^ (k - ex) = 2 ^ (k - e1) * 2 ^ (e1 - ex)).
  { rewrite <- Z.pow_add_r by lia. f_equal. lia. }
  assert (Hp1 : 0 < 2 ^ (e1 - ex)) by (apply Z.pow_pos_nonneg; lia).
  assert (Hm1 : 0 <= shr_m r1 < t * 2 ^ (k - e1)).
  { rewrite M1. split; [apply Z.div_pos; lia|].
    apply Z.div_lt_upper_bound; [lia|]. rewrite Hpow in Hlt. lia. }
  pose proof (round_nearest_even_bounds (shr_m r1) (loc_of_shr_record r1)) as Hr.
  set (m2 := round_nearest_even (shr_m r1) (loc_of_shr_record r1)) in *.
  assert (Hm2 : 0 <= m2 <= t * 2 ^ (k - e1)) by lia.
  destruct (shr_fexp_spec m2 e1 loc_Exact (proj1 Hm2)) as [E2 M2].
  cbv zeta in E2, M2.
  set (e2 := Z.max e1 (fexp prec emax (Zdigits2 m2 + e1))) in *.
  rewrite E2. set (r2 := fst (shr_fexp prec emax m2 e1 loc_Exact)) in *.
  assert (He2 : e2 <= k).
  { pose proof (fexp_le m2 e1 t k Ht (proj1 Hk) He1 Hm2). lia. }
  assert (Hpow2 : 2 ^ (k - e1) = 2 ^ (k - e2) * 2 ^ (e2 - e1)).
  { rewrite <- Z.pow_add_r by lia. f_equal. lia. }
  assert (Hp2 : 0 < 2 ^ (e2 - e1)) by (apply Z.pow_pos_nonneg; lia).
  assert (Hm3 : 0 <= shr_m r2 <= t * 2 ^ (k - e2)).
  { rewrite M2. split; [apply Z.div_pos; lia|].
    apply Z.div_le_upper_bound; [lia|]. rewrite Hpow2 in Hm2. lia. }
  destruct (shr_m r2) as [| m3 | m3]; [left; reflexivity | | lia].
  right. exists m3, e2. unfold emax, prec at 1.
  replace (e2 <=? 1024 - 53) with true by (symmetry; apply Z.leb_le; lia).
  repeat split; [lia | lia].
Qed.

(** A random value is [+0] or [m * 2^e] with [m * 2^e < 1]. *)
Lemma is_random_value_cases (x : Number) :
  is_random_value x = true ->
  x = zero \/
  exists m e, x = S754_finite false m e /\ e <= -52 /\ Z.pos m < 2 ^ (- e).
Proof.
  unfold is_random_value. intros H.
  apply andb_prop in H as [Hv H].
  destruct x as [s | s | | s m e]; try discriminate.
  - left. destruct s; [discriminate | reflexivity].
  - right. apply andb_prop in H as [Hs Hlt].
    destruct s; [discriminate|]. exists m, e. split; [reflexivity|].
    cbn [valid_binary] in Hv. unfold bounded, canonical_mantissa in Hv.
    apply andb_prop in Hv as [Hc _]. apply Z.eqb_eq in Hc.
    unfold fexp, emin, prec, emax in Hc.
    pose proof (digits2_pos_bounds m) as [_ Hd].
    unfold SFltb, one in Hlt. cbn [SFcompare] in Hlt.
    destruct (Z.compare_spec e (-52)) as [He | He | He]; [| | discriminate].
    + split; [lia|]. subst e.
      destruct (Pos.compare_cont Eq m 4503599627370496) eqn:Hm; try discriminate.
      apply (proj1 (Pos.compare_lt_iff m 4503599627370496)) in Hm.
      change (- -52) with 52. change (2 ^ 52) with (Z.pos 4503599627370496).
      exact Hm.
    + split; [lia|].
      assert (2 ^ Z.pos (digits2_pos m) <= 2 ^ (- e))
        by (apply Z.pow_le_mono_r; lia).
      lia.
Qed.

(** [fl (x * 255)] for a random [x]: zero, or positive and at most 255. *)
Lemma Nmul_random_255 (x : Number) :
  is_random_value x = true ->
  Nmul x n255 = zero \/
  exists m e, Nmul x n255 = S754_finite false m e /\
              e <= 0 /\ Z.pos m <= 255 * 2 ^ (- e).
Proof.
  intros H. destruct (is_random_value_cases x H) as [-> | (m & e & -> & He & Hm)].
  - left. reflexivity.
  - unfold Nmul, n255. cbn [SFmul xorb].
    assert (Hp : 0 < 2 ^ (- e)) by (apply Z.pow_pos_nonneg; lia).
    destruct (binary_round_aux_bound 255 0 false
                (Z.pos (m * 8972014882652160)) (e + -45) loc_Exact)
      as [Hz | (m' & e' & Hf & He' & Hm')]; try lia.
    + replace (0 - (e + -45)) with (45 + - e) by lia.
      rewrite Z.pow_add_r by lia. change (2 ^ 45) with 35184372088832.
      rewrite Pos2Z.inj_mul. nia.
    + left. exact Hz.
    + right. exists m', e'. rewrite Z.sub_0_l in Hm'. auto.
Qed.

(** [fl (y / 255)] for a positive [y] of at most 255: zero, or positive and
    at most 5/4. *)
Lemma Ndiv_255_bound (m e : Z) (p : positive) :
  Z.pos p = m -> e <= 0 -> m <= 255 * 2 ^ (- e) ->
  Ndiv (S754_finite false p e) n255 = zero \/
  exists m' e', Ndiv (S754_finite false p e) n255 = S754_finite false m' e' /\
                e' <= -2 /\ Z.pos m' <= 5 * 2 ^ (- 2 - e').
Proof.
  intros <- He Hm. unfold Ndiv, n255. cbn [SFdiv xorb].
  unfold SFdiv_core_binary.
  change (Zdigits2 (Z.pos 8972014882652160)) with 53.
  set (d1 := Zdigits2 (Z.pos p)).
  set (e' := Z.min (fexp prec emax (d1 + e - (53 + -45))) (e - -45)).
  assert (Hp : 0 < 2 ^ (- e)) by (apply Z.pow_pos_nonneg; lia).
  assert (Hd1 : d1 + e <= 8).
  { assert (Hlt : Z.pos p < 2 ^ (8 + - e)).
    { rewrite Z.pow_add_r by lia. change (2 ^ 8) with 256. lia. }
    pose proof (Zdigits2_bound (Z.pos p) _ ltac:(lia) Hlt). subst d1. lia. }
  assert (He' : e' <= -53).
  { subst e'. unfold fexp, emin, prec, emax. lia. }
  assert (Hs : 0 <= e - -45 - e') by (subst e'; lia).
  set (m1 := match e - -45 - e' with
             | 0 => Z.pos p
             | Z.pos _ => Z.shiftl (Z.pos p) (e - -45 - e')
             | Z.neg _ => 0
             end).
  assert (Hm1 : m1 = Z.pos p * 2 ^ (e - -45 - e')).
  { subst m1. destruct (e - -45 - e') as [| s | s] eqn:Es.
    - cbn. lia.
    - apply Z.shiftl_mul_pow2. lia.
    - lia. }
  pose proof (Z_div_mod m1 8972014882652160 ltac:(lia)) as Hdiv.
  destruct (Z.div_eucl m1 8972014882652160) as [q r].
  destruct Hdiv as [Hq Hr].
  assert (Hps : 0 < 2 ^ (e - -45 - e')) by (apply Z.pow_pos_nonneg; lia).
  assert (Hpe : 0 < 2 ^ (- 2 - e')) by (apply Z.pow_pos_nonneg; lia).
  assert (Hq0 : 0 <= q) by nia.
  assert (Hqb : q <= 4 * 2 ^ (- 2 - e')).
  { assert (Hc : 8972014882652160 * q <= 8972014882652160 * (4 * 2 ^ (- 2 - e'))).
    { assert (Hx : Z.pos p * 2 ^ (e - -45 - e')
                   <= 255 * 2 ^ (- e) * 2 ^ (e - -45 - e')) by nia.
      replace (255 * 2 ^ (- e) * 2 ^ (e - -45 - e'))
        with (8972014882652160 * (4 * 2 ^ (- 2 - e'))) in Hx.
      - lia.
      - rewrite <- Z.mul_assoc, <- Z.pow_add_r by lia.
        replace (- e + (e - -45 - e')) with (47 + (- 2 - e')) by lia.
        rewrite Z.pow_add_r by lia. change (2 ^ 47) with 140737488355328. lia. }
    lia. }
  destruct (binary_round_aux_bound 5 (-2) false q e' (new_location 8972014882652160 r))
    as [Hz | (m' & e'' & Hf & He'' & Hm')]; try lia.
  - left. exact Hz.
  - right. exists m', e''. auto.
Qed.

(** [Math.round] of a positive Number of at most 5/4 is 0 or 1. *)
Lemma Math_round_small (m : positive) (e : Z) :
  e <= -2 -> Z.pos m <= 5 * 2 ^ (- 2 - e) ->
  Math_round (S754_finite false m e) = zero \/
  Math_round (S754_finite false m e) = one.
Proof.
  intros He Hm. unfold Math_round.
  replace (0 <=? e) with false by (symmetry; apply Z.leb_gt; lia).
  cbn [cond_Zopp].
  assert (Hp : 0 < 2 ^ (- 2 - e)) by (apply Z.pow_pos_nonneg; lia).
  replace (- e - 1) with (1 + (- 2 - e)) by lia.
  replace (- e) with (2 + (- 2 - e)) by lia.
  rewrite !Z.pow_add_r by lia. change (2 ^ 1) with 2. change (2 ^ 2) with 4.
  set (P := 2 ^ (- 2 - e)) in *.
  assert (H0 : 0 <= (Z.pos m + 2 * P) / (4 * P)) by (apply Z.div_pos; lia).
  assert (H1 : (Z.pos m + 2 * P) / (4 * P) < 2)
    by (apply Z.div_lt_upper_bound; lia).
  assert (Hn : (Z.pos m + 2 * P) / (4 * P) = 0 \/ (Z.pos m + 2 * P) / (4 * P) = 1)
    by lia.
  destruct Hn as [-> | ->]; [left | right]; reflexivity.
Qed.

(** One channel of [randomColour]. *)
Lemma channel_zero_or_one (x : Number) :
  is_random_value x = true ->
  Math_round (Ndiv (Nmul x n255) n255) = zero \/
  Math_round (Ndiv (Nmul x n255) n255) = one.
Proof.
  intros H.
  destruct (Nmul_random_255 x H) as [-> | (m & e & -> & He & Hm)].
  - left. reflexivity.
  - destruct (Ndiv_255_bound (Z.pos m) e m eq_refl He Hm)
      as [-> | (m' & e' & -> & He' & Hm')].
    + left. reflexivity.
    + apply Math_round_small; assumption.
Qed.

End Rounding.

(** ** Running the program on an arbitrary world *)

Lemma select_app (p : GLCall -> bool) (l1 l2 : list GLCall) :
  select p (l1 ++ l2) = select p l1 ++ select p l2.
Proof.
  induction l1 as [| c l1 IH]; cbn; [reflexivity|].
  destruct (p c); cbn; rewrite IH; reflexivity.
Qed.

Lemma issued_eq {A} (m : JS A) (w : World) (l : list GLCall) :
  calls (snd (m w)) = calls w ++ l -> issued m w = l.
Proof. unfold issued. intros ->. apply drop_app_length. Qed.

Lemma get_prop_cases (v : Value) (name : string) (w : World) :
  (exists e, get_prop v name w = (Throw e, w)) \/
  (exists v', get_prop v name w = (Normal v', w)).
Proof.
  destruct v; cbn; eauto.
  unfold bind, load. cbn. destruct (heap w !! l) as [[fields | elems] |]; cbn; eauto.
Qed.

Lemma get_prop_Obj (l : Ref) (name : string) (w : World) (fields : gmap string Value) :
  heap w !! l = Some (Obj fields) ->
  get_prop (VRef l) name w = (Normal (default VUndefined (fields !! name)), w).
Proof. intros H. unfold get_prop, bind, load. rewrite H. reflexivity. Qed.

(** Symbolic execution of a computation held in a hypothesis [E]. *)
Ltac find_in_heap :=
  cbn [heap];
  repeat first [ apply lookup_insert_eq | rewrite lookup_insert_ne by lia ].

Ltac step_in E :=
  cbv [bind ret throw record fresh_handle history console_error alloc load store
       gl_createShader gl_shaderSource gl_compileShader gl_getShaderParameter
       gl_getShaderInfoLog gl_deleteShader gl_createProgram gl_attachShader
       gl_linkProgram gl_getProgramParameter gl_getProgramInfoLog
       gl_getAttribLocation gl_getUniformLocation gl_createBuffer
       gl_bufferData new_Float32Array
       gl_clearColor gl_clearDepth gl_enable gl_depthFunc gl_clear
       gl_bindBuffer gl_vertexAttribPointer gl_enableVertexAttribArray
       gl_useProgram gl_uniformMatrix4fv gl_uniform3f gl_drawArrays
       mat4_create mat4_perspective mat4_translate randomColour
       Math_random_call
       calls next_handle heap next_ref console random_draws] in E;
  repeat first
    [ rewrite lookup_insert_eq in E
    | rewrite lookup_singleton_eq in E
    | rewrite lookup_insert_ne in E by (first [lia | discriminate]) ];
  cbv [default from_option id] in E.

Ltac read_in E :=
  match type of E with
  | context [get_prop (VRef ?l) ?n ?w] =>
      erewrite (get_prop_Obj l n w) in E by find_in_heap
  | context [get_prop ?v ?n ?w] =>
      let e := fresh "e" in
      let v' := fresh "v" in
      let H := fresh "H" in
      destruct (get_prop_cases v n w) as [[e H] | [v' H]];
      rewrite H in E; clear H
  end.

Ltac run_in E := step_in E; repeat (read_in E; step_in E).

Ltac stopped_at k :=
  exists k; do 7 eexists;
  split; [rewrite <- !app_assoc; reflexivity |];
  split; [lia |];
  split; [split; [try lia; reflexivity | try discriminate; reflexivity] |];
  split; [intros ? ?; rewrite !lookup_insert_ne by lia; reflexivity |];
  split; reflexivity.

(** Every run of [drawScene]: the calls it issues are the first [k] of the
    full list, it completes normally exactly when all thirteen were issued,
    and it leaves the objects that existed before alone. *)
Lemma drawScene_run (host : Host) (pi bufs : Value) (w : World) :
  exists (k : nat) (position vp vp' program pl mvl cl : Value),
    calls (snd (drawScene host pi bufs w)) =
      calls w ++ take k (drawScene_calls host (random_draws w)
                           position vp vp' program pl mvl cl) /\
    5 <= k <= 13 /\
    (k = 13 <-> fst (drawScene host pi bufs w) = Normal tt) /\
    (forall l, l < next_ref w ->
       heap (snd (drawScene host pi bufs w)) !! l = heap w !! l) /\
    next_handle (snd (drawScene host pi bufs w)) = next_handle w /\
    console (snd (drawScene host pi bufs w)) = console w.
Proof.
  destruct w as [cs nh hp nr co rd].
  remember (drawScene host pi bufs (mkWorld cs nh hp nr co rd)) as res eqn:E.
  unfold drawScene in E. run_in E; subst res; cbn [fst snd calls heap next_ref
    next_handle console random_draws].
  all: first [ stopped_at 5 | stopped_at 6 | stopped_at 7 | stopped_at 8
             | stopped_at 9 | stopped_at 10 | stopped_at 11 | stopped_at 13 ].
  Unshelve. all: exact VUndefined.
Qed.

Lemma drawScene_issued (host : Host) (pi bufs : Value) (w : World) :
  exists (k : nat) (position vp vp' program pl mvl cl : Value),
    issued (drawScene host pi bufs) w =
      take k (drawScene_calls host (random_draws w)
                position vp vp' program pl mvl cl) /\
    5 <= k <= 13 /\
    (k = 13 <-> fst (drawScene host pi bufs w) = Normal tt).
Proof.
  destruct (drawScene_run host pi bufs w)
    as (k & position & vp & vp' & program & pl & mvl & cl & Hc & Hk & Hn & _).
  exists k, position, vp, vp', program, pl, mvl, cl.
  split; [apply issued_eq; exact Hc | auto].
Qed.

(** [loadShaders], whatever the compiler says. *)
Lemma loadShaders_run (host : Host) (type : Z) (source : string) (w : World) :
  let shader := next_handle w in
  let asked := calls w ++ compile_calls type shader source in
  let message := "An error occured compiling the shaders: " +:+
    ToString (shader_info_log host
                (asked ++ [GL_getShaderParameter shader COMPILE_STATUS]) shader) in
  loadShaders host type source w =
    if shader_parameter host asked shader COMPILE_STATUS
    then (Normal shader,
          mkWorld (asked ++ [GL_getShaderParameter shader COMPILE_STATUS])
            (S shader) (heap w) (next_ref w) (console w) (random_draws w))
    else (Throw (Error message),
          mkWorld (asked ++ [GL_getShaderParameter shader COMPILE_STATUS;
                             GL_getShaderInfoLog shader; GL_deleteShader shader])
            (S shader) (heap w) (next_ref w) (console w ++ [message])
            (random_draws w)).
Proof.
  destruct w as [cs nh hp nr co rd]. cbv zeta. cbn [next_handle calls heap
    next_ref console random_draws]. unfold compile_calls.
  remember (loadShaders host type source (mkWorld cs nh hp nr co rd)) as res eqn:E.
  unfold loadShaders in E. step_in E.
  rewrite <- !app_assoc in E. cbn [app] in E.
  rewrite <- !app_assoc. cbn [app].
  destruct (shader_parameter host _ nh COMPILE_STATUS); cbn [negb] in E;
    step_in E; rewrite <- ?app_assoc in E; cbn [app] in E; exact E.
Qed.

Lemma loadShaders_Normal (host : Host) (type : Z) (source : string)
    (w w1 : World) (shader : Handle) :
  loadShaders host type source w = (Normal shader, w1) ->
  shader = next_handle w /\
  shader_parameter host (calls w ++ compile_calls type shader source)
    shader COMPILE_STATUS = true /\
  w1 = mkWorld (calls w ++ compile_calls type shader source ++
                  [GL_getShaderParameter shader COMPILE_STATUS])
         (S shader) (heap w) (next_ref w) (console w) (random_draws w).
Proof.
  rewrite loadShaders_run. cbv zeta.
  destruct (shader_parameter host _ (next_handle w) COMPILE_STATUS) eqn:Hs;
    [| discriminate].
  intros [= <- <-]. rewrite Hs, <- app_assoc. auto.
Qed.

Lemma loadShaders_Throw (host : Host) (type : Z) (source : string)
    (w w1 : World) (e : JSError) :
  loadShaders host type source w = (Throw e, w1) ->
  let shader := next_handle w in
  shader_parameter host (calls w ++ compile_calls type shader source)
    shader COMPILE_STATUS = false /\
  calls w1 = calls w ++ compile_calls type shader source ++
               [GL_getShaderParameter shader COMPILE_STATUS;
                GL_getShaderInfoLog shader; GL_deleteShader shader] /\
  heap w1 = heap w /\ next_ref w1 = next_ref w.
Proof.
  rewrite loadShaders_run. cbv zeta.
  destruct (shader_parameter host _ (next_handle w) COMPILE_STATUS) eqn:Hs;
    [discriminate |].
  intros [= <- <-]. cbn [calls heap next_ref]. rewrite <- app_assoc. auto.
Qed.

(** [initShaderProgram] once both shaders have compiled. *)
Lemma initShaderProgram_linking (host : Host) (vs fs : string)
    (w w1 w2 : World) (v f : Handle) :
  loadShaders host VERTEX_SHADER vs w = (Normal v, w1) ->
  loadShaders host FRAGMENT_SHADER fs w1 = (Normal f, w2) ->
  let program := next_handle w2 in
  let asked := calls w2 ++ link_calls program v f in
  let message := "Unable to initialize the shader program: " +:+
    ToString (program_info_log host
                (asked ++ [GL_getProgramParameter program LINK_STATUS]) program) in
  initShaderProgram host vs fs w =
    if program_parameter host asked program LINK_STATUS
    then (Normal program,
          mkWorld (asked ++ [GL_getProgramParameter program LINK_STATUS])
            (S program) (heap w2) (next_ref w2) (console w2) (random_draws w2))
    else (Throw (Error message),
          mkWorld (asked ++ [GL_getProgramParameter program LINK_STATUS;
                             GL_getProgramInfoLog program])
            (S program) (heap w2) (next_ref w2) (console w2 ++ [message])
            (random_draws w2)).
Proof.
  intros Hv Hf. cbv zeta. unfold link_calls.
  remember (initShaderProgram host vs fs w) as res eqn:E.
  unfold initShaderProgram in E. unfold bind at 1 in E. rewrite Hv in E.
  unfold bind at 1 in E. rewrite Hf in E.
  destruct w2 as [cs nh hp nr co rd]. step_in E.
  cbn [next_handle calls heap next_ref console random_draws].
  rewrite <- !app_assoc in E. cbn [app] in E.
  rewrite <- !app_assoc. cbn [app].
  destruct (program_parameter host _ nh LINK_STATUS); cbn [negb] in E;
    step_in E; rewrite <- ?app_assoc in E; cbn [app] in E; exact E.
Qed.

Lemma initShaderProgram_vertex_rejected (host : Host) (vs fs : string)
    (w w1 : World) (e : JSError) :
  loadShaders host VERTEX_SHADER vs w = (Throw e, w1) ->
  initShaderProgram host vs fs w = (Throw e, w1).
Proof.
  intros Hv. unfold initShaderProgram. unfold bind at 1. rewrite Hv. reflexivity.
Qed.

Lemma initShaderProgram_fragment_rejected (host : Host) (vs fs : string)
    (w w1 w2 : World) (v : Handle) (e : JSError) :
  loadShaders host VERTEX_SHADER vs w = (Normal v, w1) ->
  loadShaders host FRAGMENT_SHADER fs w1 = (Throw e, w2) ->
  initShaderProgram host vs fs w = (Throw e, w2).
Proof.
  intros Hv Hf. unfold initShaderProgram. unfold bind at 1. rewrite Hv.
  unfold bind at 1. rewrite Hf. reflexivity.
Qed.

(** Whatever happens, [initShaderProgram] only adds to the log, draws
    nothing, uploads no matrix and touches no heap object. *)
Lemma initShaderProgram_run (host : Host) (vs fs : string) (w : World) :
  exists l,
    calls (snd (initShaderProgram host vs fs w)) = calls w ++ l /\
    select is_drawArrays l = [] /\
    select is_uniformMatrix4fv l = [] /\
    heap (snd (initShaderProgram host vs fs w)) = heap w /\
    next_ref (snd (initShaderProgram host vs fs w)) = next_ref w.
Proof.
  destruct (loadShaders host VERTEX_SHADER vs w) as [[v | e] w1] eqn:Hv.
  - destruct (loadShaders host FRAGMENT_SHADER fs w1) as [[f | e] w2] eqn:Hf.
    + rewrite (initShaderProgram_linking host vs fs w w1 w2 v f Hv Hf). cbv zeta.
      apply loadShaders_Normal in Hv as (-> & _ & ->).
      apply loadShaders_Normal in Hf as (-> & _ & ->).
      cbn [next_handle calls heap next_ref console random_draws].
      destruct (program_parameter host _ _ LINK_STATUS);
        cbn [snd calls heap next_ref]; rewrite <- !app_assoc;
        eexists; (split; [reflexivity |]); (split; [reflexivity |]);
        (split; [reflexivity |]); auto.
    + rewrite (initShaderProgram_fragment_rejected host vs fs w w1 w2 v e Hv Hf).
      apply loadShaders_Normal in Hv as (-> & _ & ->).
      apply loadShaders_Throw in Hf as (_ & Hc & Hh & Hr).
      cbn [next_handle calls heap next_ref console random_draws] in Hc, Hh, Hr.
      cbn [snd]. rewrite Hc, Hh, Hr, <- !app_assoc.
      eexists; (split; [reflexivity |]); (split; [reflexivity |]);
        (split; [reflexivity |]); auto.
  - rewrite (initShaderProgram_vertex_rejected host vs fs w w1 e Hv).
    apply loadShaders_Throw in Hv as (_ & Hc & Hh & Hr).
    cbn [snd]. rewrite Hc, Hh, Hr.
    eexists; (split; [reflexivity |]); (split; [reflexivity |]);
        (split; [reflexivity |]); auto.
Qed.

(** [initBuffers] always succeeds. *)
Lemma initBuffers_run (w : World) :
  let buffer := next_handle w in
  initBuffers w =
    (Normal (S (next_ref w)),
     mkWorld (calls w ++ [GL_createBuffer buffer;
                          GL_bindBuffer ARRAY_BUFFER (VGL buffer);
                          GL_bufferData ARRAY_BUFFER positions STATIC_DRAW])
       (S buffer)
       (<[S (next_ref w) := Obj {["position" := VGL buffer]}]>
          (<[next_ref w := Float32Array positions]> (heap w)))
       (S (S (next_ref w))) (console w) (random_draws w)).
Proof.
  destruct w as [cs nh hp nr co rd]. cbv zeta.
  cbn [next_handle calls heap next_ref console random_draws].
  remember (initBuffers (mkWorld cs nh hp nr co rd)) as res eqn:E.
  unfold initBuffers in E. step_in E.
  rewrite <- !app_assoc in E. cbn [app] in E. exact E.
Qed.

(** The top level of part_000 once [initShaderProgram] has returned. *)
Lemma script_success (host : Host) (w w1 : World) (p : Handle) :
  initShaderProgram host vertexShader fragmentShader w = (Normal p, w1) ->
  let b := next_handle w1 in
  let h1 := calls w1 ++ [GL_getAttribLocation p "aVertexPosition"] in
  let h2 := h1 ++ [GL_getUniformLocation p "uProjectionMatrix"] in
  let h3 := h2 ++ [GL_getUniformLocation p "uModelViewMatrix"] in
  let vp := VInt (attrib_location host (calls w1) p "aVertexPosition") in
  let pl := location_value (uniform_location host h1 p "uProjectionMatrix") in
  let mvl := location_value (uniform_location host h2 p "uModelViewMatrix") in
  let cl := location_value (uniform_location host h3 p "colorMatrix") in
  fst (script host w) = Normal tt /\
  calls (snd (script host w)) =
    calls w1 ++ setup_calls p b ++
    drawScene_calls host (random_draws w1) (VGL b) vp vp (VGL p) pl mvl cl.
Proof.
  intros Hinit. cbv zeta.
  remember (script host w) as res eqn:E.
  unfold script in E. unfold bind at 1 in E. rewrite Hinit in E.
  destruct w1 as [cs nh hp nr co rd].
  unfold initBuffers, drawScene in E. run_in E.
  subst res. cbn [fst snd calls next_handle random_draws].
  split; [reflexivity |].
  rewrite <- !app_assoc. reflexivity.
Qed.

Lemma script_failure (host : Host) (w w1 : World) (e : JSError) :
  initShaderProgram host vertexShader fragmentShader w = (Throw e, w1) ->
  script host w = (Throw e, w1).
Proof.
  intros Hinit. unfold script. unfold bind at 1. rewrite Hinit. reflexivity.
Qed.

(** The top level of main.js: whatever happens, nothing is drawn. *)
Lemma main_script_run (host : Host) (w : World) :
  exists l,
    calls (snd (main_script host w)) = calls w ++ l /\
    select is_drawArrays l = [].
Proof.
  destruct (initShaderProgram_run host vertexShader main_fragmentShader w)
    as (l0 & Hc & Hd & _ & _).
  remember (main_script host w) as res eqn:E.
  unfold main_script in E. unfold bind at 1 in E.
  destruct (initShaderProgram host vertexShader main_fragmentShader w)
    as [[p | e] [cs nh hp nr co rd]].
  - run_in E. subst res. cbn [snd calls] in Hc |- *. rewrite Hc.
    exists (l0 ++ [GL_getAttribLocation p "aVertexPosition";
                   GL_getUniformLocation p "uProjectionMatrix";
                   GL_getUniformLocation p "uModelViewMatrix"]).
    rewrite <- !app_assoc, select_app, Hd. split; reflexivity.
  - subst res. exists l0. auto.
Qed.

Lemma translate_identity :
  translate_elems mat4_identity neg_zero zero neg_six = identity_translated_z.
Proof. vm_compute. reflexivity. Qed.

Lemma channel_binary (host : Host) (n : nat) :
  is_random_value (Math_random host n) = true -> zero_or_one (channel host n).
Proof.
  intros H. unfold zero_or_one, channel.
  destruct (channel_zero_or_one _ H) as [-> | ->]; auto.
Qed.

Lemma get_prop_same_object (l : Ref) (name : string) (w1 w2 : World) :
  heap w1 !! l = heap w2 !! l ->
  fst (get_prop (VRef l) name w1) = fst (get_prop (VRef l) name w2).
Proof.
  intros H. unfold get_prop, bind, load. rewrite H.
  destruct (heap w2 !! l) as [[fields | elems] |]; reflexivity.
Qed.


(** ** The claims *)

(** C1.  Whatever [Math.random] returns (any Numbers of positive sign below
    1), each of the channels R, G and B of [randomColour], computed as
    [round((random() * 255) / 255)] in binary64, is exactly 0 or exactly 1;
    hence every colour [drawScene] uploads with [uniform3f] has channels that
    are exactly 0 or exactly 1. *)
Theorem randomColour_channels_binary (host : Host) :
  (forall n, is_random_value (Math_random host n) = true) ->
  (forall w, exists colour w' R G B,
      randomColour host w = (Normal colour, w') /\
      heap w' !! colour =
        Some (Obj (<["R" := R]> (<["G" := G]> (<["B" := B]> ∅)))) /\
      zero_or_one R /\ zero_or_one G /\ zero_or_one B) /\
  (forall pi bufs w, colour_uploads_binary (issued (drawScene host pi bufs) w)).
Proof.
  intros Hrandom. split.
  - intros [cs nh hp nr co rd]. do 5 eexists.
    split; [reflexivity |]. split; [cbn [heap]; apply lookup_insert_eq |].
    cbn [random_draws]. repeat split; apply (channel_binary host); apply Hrandom.
  - intros pi bufs w location x y z Hin.
    destruct (drawScene_issued host pi bufs w)
      as (k & position & vp & vp' & program & pl & mvl & cl & Hi & Hk & _).
    rewrite Hi in Hin. clear Hi.
    assert (Hfull : In (GL_uniform3f location x y z)
                      (drawScene_calls host (random_draws w)
                         position vp vp' program pl mvl cl)).
    { rewrite <- (take_drop k). apply in_or_app. left. exact Hin. }
    cbn in Hfull.
    repeat (destruct Hfull as [Hfull | Hfull]; [try discriminate |]);
      [| contradiction].
    injection Hfull as _ <- <- <-.
    repeat split; apply channel_binary; apply Hrandom.
Qed.

Lemma randomColour_channels_binary_witness :
  (forall n, is_random_value (Math_random friendly_host n) = true) /\
  colour_uploads_binary
    (issued (drawScene friendly_host (VRef 2) (VRef 4)) ready_world).
Proof.
  assert (H : forall n, is_random_value (Math_random friendly_host n) = true).
  { intros n. cbn [Math_random friendly_host].
    destruct (n mod 3) as [| [| ?]]; reflexivity. }
  split; [exact H |].
  apply (proj2 (randomColour_channels_binary friendly_host H)).
Defined.

(** C2 (as stated, refuted).  On the friendly host compilation and linking
    succeed and [src/main.js] runs to its end, yet it issues no draw call:
    its top level ends after building [programInfo] and the file has no draw
    routine. *)
Lemma main_js_issues_no_draw_call :
  fst (initShaderProgram friendly_host vertexShader main_fragmentShader
         initial_world) = Normal 2 /\
  fst (main_script friendly_host initial_world) = Normal tt /\
  select is_drawArrays (issued (main_script friendly_host) initial_world) = [] /\
  length (select is_drawArrays (issued (main_script friendly_host) initial_world))
    <> 1.
Proof. vm_compute. repeat split; discriminate. Qed.

(** C2 (amended).  In a run of [src/unnamed/part_000] in which shader
    compilation and program linking succeed, the script completes and issues
    exactly one draw call.  [src/main.js] issues no draw call in any run,
    whatever its compilation and linking do. *)
Theorem one_draw_call_in_part_000_none_in_main_js (host : Host) (w : World) :
  (forall p : Handle,
     fst (initShaderProgram host vertexShader fragmentShader w) = Normal p ->
     fst (script host w) = Normal tt /\
     length (select is_drawArrays (issued (script host) w)) = 1) /\
  select is_drawArrays (issued (main_script host) w) = [].
Proof.
  split.
  - intros p.
    destruct (initShaderProgram host vertexShader fragmentShader w)
      as [c w1] eqn:Hinit.
    cbn [fst]. intros ->.
    destruct (script_success host w w1 p Hinit) as [Hn Hc]. cbv zeta in Hc.
    destruct (initShaderProgram_run host vertexShader fragmentShader w)
      as (l0 & Hc0 & Hd0 & Hu0 & _).
    rewrite Hinit in Hc0. cbn [snd] in Hc0. rewrite Hc0, <- app_assoc in Hc.
    split; [exact Hn |].
    rewrite (issued_eq _ _ _ Hc), !select_app, Hd0. reflexivity.
  - destruct (main_script_run host w) as (l & Hl & Hd).
    rewrite (issued_eq _ _ _ Hl). exact Hd.
Qed.

Lemma one_draw_call_in_part_000_none_in_main_js_witness :
  fst (initShaderProgram friendly_host vertexShader fragmentShader initial_world)
    = Normal 2 /\
  fst (script friendly_host initial_world) = Normal tt /\
  length (select is_drawArrays (issued (script friendly_host) initial_world)) = 1 /\
  select is_drawArrays (issued (main_script friendly_host) initial_world) = [] /\
  select is_drawArrays (issued (main_script rejecting_host) initial_world) = [].
Proof.
  assert (H : fst (initShaderProgram friendly_host vertexShader fragmentShader
                     initial_world) = Normal 2) by (vm_compute; reflexivity).
  split; [exact H |].
  split; [exact (proj1 (proj1 (one_draw_call_in_part_000_none_in_main_js
                                 friendly_host initial_world) 2 H)) |].
  split; [exact (proj2 (proj1 (one_draw_call_in_part_000_none_in_main_js
                                 friendly_host initial_world) 2 H)) |].
  split; [exact (proj2 (one_draw_call_in_part_000_none_in_main_js
                          friendly_host initial_world)) |].
  exact (proj2 (one_draw_call_in_part_000_none_in_main_js
                  rejecting_host initial_world)).
Defined.

(** C3.  For every stage kind and source: when the context reports compile
    status false for the shader object just created, [loadShaders] asks for
    its info log, deletes that shader object and throws an [Error] whose
    message ends with the log; when it reports true, [loadShaders] returns
    the shader handle, throws nothing and deletes nothing.  (The template
    literal turns a null log into the text "null".) *)
Theorem loadShaders_checks_compile_status (host : Host) (type : Z)
    (source : string) (w : World) :
  let shader := next_handle w in
  let asked := calls w ++ compile_calls type shader source in
  let log := shader_info_log host
               (asked ++ [GL_getShaderParameter shader COMPILE_STATUS]) shader in
  (shader_parameter host asked shader COMPILE_STATUS = false ->
     fst (loadShaders host type source w) =
       Throw (Error ("An error occured compiling the shaders: " +:+ ToString log)) /\
     issued (loadShaders host type source) w =
       compile_calls type shader source ++
       [GL_getShaderParameter shader COMPILE_STATUS;
        GL_getShaderInfoLog shader; GL_deleteShader shader]) /\
  (shader_parameter host asked shader COMPILE_STATUS = true ->
     fst (loadShaders host type source w) = Normal shader /\
     issued (loadShaders host type source) w =
       compile_calls type shader source ++
       [GL_getShaderParameter shader COMPILE_STATUS]).
Proof.
  cbv zeta. split; intros Hs.
  - pose proof (loadShaders_run host type source w) as E. cbv zeta in E.
    rewrite Hs in E. rewrite E. split; [reflexivity |].
    apply issued_eq. rewrite E. cbn [snd calls]. apply eq_sym, app_assoc.
  - pose proof (loadShaders_run host type source w) as E. cbv zeta in E.
    rewrite Hs in E. rewrite E. split; [reflexivity |].
    apply issued_eq. rewrite E. cbn [snd calls]. apply eq_sym, app_assoc.
Qed.

Lemma loadShaders_checks_compile_status_witness :
  (fst (loadShaders rejecting_host FRAGMENT_SHADER fragmentShader initial_world) =
     Throw (Error "An error occured compiling the shaders: ERROR: 0:1: syntax error") /\
   issued (loadShaders rejecting_host FRAGMENT_SHADER fragmentShader) initial_world =
     compile_calls FRAGMENT_SHADER 0 fragmentShader ++
     [GL_getShaderParameter 0 COMPILE_STATUS; GL_getShaderInfoLog 0;
      GL_deleteShader 0]) /\
  (fst (loadShaders friendly_host FRAGMENT_SHADER fragmentShader initial_world) =
     Normal 0 /\
   issued (loadShaders friendly_host FRAGMENT_SHADER fragmentShader) initial_world =
     compile_calls FRAGMENT_SHADER 0 fragmentShader ++
     [GL_getShaderParameter 0 COMPILE_STATUS]).
Proof.
  split.
  - apply (proj1 (loadShaders_checks_compile_status rejecting_host
                    FRAGMENT_SHADER fragmentShader initial_world)).
    vm_compute; reflexivity.
  - apply (proj2 (loadShaders_checks_compile_status friendly_host
                    FRAGMENT_SHADER fragmentShader initial_world)).
    vm_compute; reflexivity.
Defined.

(** C4.  Once both shaders have compiled: when the context reports link
    status false for the program just created, [initShaderProgram] throws an
    [Error] whose message ends with the program's info log, and the run
    issues no draw call at all (in either script); when it reports true,
    [initShaderProgram] returns the program handle. *)
Theorem initShaderProgram_checks_link_status (host : Host) (vs fs : string)
    (w w1 w2 : World) (v f : Handle) :
  loadShaders host VERTEX_SHADER vs w = (Normal v, w1) ->
  loadShaders host FRAGMENT_SHADER fs w1 = (Normal f, w2) ->
  let program := next_handle w2 in
  let asked := calls w2 ++ link_calls program v f in
  let log := program_info_log host
               (asked ++ [GL_getProgramParameter program LINK_STATUS]) program in
  (program_parameter host asked program LINK_STATUS = false ->
     fst (initShaderProgram host vs fs w) =
       Throw (Error ("Unable to initialize the shader program: " +:+ ToString log)) /\
     (vs = vertexShader -> fs = fragmentShader ->
        select is_drawArrays (issued (script host) w) = []) /\
     (vs = vertexShader -> fs = main_fragmentShader ->
        select is_drawArrays (issued (main_script host) w) = [])) /\
  (program_parameter host asked program LINK_STATUS = true ->
     fst (initShaderProgram host vs fs w) = Normal program).
Proof.
  intros Hv Hf. cbv zeta.
  pose proof (initShaderProgram_linking host vs fs w w1 w2 v f Hv Hf) as E.
  cbv zeta in E. split; intros Hs; rewrite Hs in E.
  - split; [rewrite E; reflexivity |]. split.
    + intros -> ->.
      destruct (initShaderProgram_run host vertexShader fragmentShader w)
        as (l0 & Hc0 & Hd0 & Hu0 & _).
      rewrite E in Hc0.
      rewrite (issued_eq (script host) w l0); [exact Hd0 |].
      rewrite (script_failure host w _ _ E). exact Hc0.
    + intros _ _. destruct (main_script_run host w) as (l & Hl & Hd).
      rewrite (issued_eq _ _ _ Hl). exact Hd.
  - rewrite E. reflexivity.
Qed.

Lemma initShaderProgram_checks_link_status_witness :
  let w1 := mkWorld (compile_calls VERTEX_SHADER 0 vertexShader ++
                       [GL_getShaderParameter 0 COMPILE_STATUS]) 1 ∅ 0 [] 0 in
  let w2 := mkWorld (calls w1 ++ compile_calls FRAGMENT_SHADER 1 fragmentShader ++
                       [GL_getShaderParameter 1 COMPILE_STATUS]) 2 ∅ 0 [] 0 in
  loadShaders unlinking_host VERTEX_SHADER vertexShader initial_world
    = (Normal 0, w1) /\
  loadShaders unlinking_host FRAGMENT_SHADER fragmentShader w1 = (Normal 1, w2) /\
  program_parameter unlinking_host (calls w2 ++ link_calls 2 0 1) 2 LINK_STATUS
    = false /\
  fst (initShaderProgram unlinking_host vertexShader fragmentShader initial_world)
    = Throw (Error "Unable to initialize the shader program: varyings do not match") /\
  select is_drawArrays (issued (script unlinking_host) initial_world) = [] /\
  loadShaders friendly_host VERTEX_SHADER vertexShader initial_world
    = (Normal 0, w1) /\
  loadShaders friendly_host FRAGMENT_SHADER fragmentShader w1 = (Normal 1, w2) /\
  program_parameter friendly_host (calls w2 ++ link_calls 2 0 1) 2 LINK_STATUS
    = true /\
  fst (initShaderProgram friendly_host vertexShader fragmentShader initial_world)
    = Normal 2.
Proof.
  intros w1 w2.
  assert (Hv : loadShaders unlinking_host VERTEX_SHADER vertexShader initial_world
               = (Normal 0, w1)) by (vm_compute; reflexivity).
  assert (Hf : loadShaders unlinking_host FRAGMENT_SHADER fragmentShader w1
               = (Normal 1, w2)) by (vm_compute; reflexivity).
  assert (Hv' : loadShaders friendly_host VERTEX_SHADER vertexShader initial_world
                = (Normal 0, w1)) by (vm_compute; reflexivity).
  assert (Hf' : loadShaders friendly_host FRAGMENT_SHADER fragmentShader w1
                = (Normal 1, w2)) by (vm_compute; reflexivity).
  destruct (initShaderProgram_checks_link_status unlinking_host
              vertexShader fragmentShader initial_world w1 w2 0 1 Hv Hf)
    as [Hfail _].
  destruct (Hfail eq_refl) as (Hthrow & Hscript & _).
  destruct (initShaderProgram_checks_link_status friendly_host
              vertexShader fragmentShader initial_world w1 w2 0 1 Hv' Hf')
    as [_ Hok].
  split; [exact Hv |]. split; [exact Hf |]. split; [reflexivity |].
  split; [exact Hthrow |]. split; [exact (Hscript eq_refl eq_refl) |].
  split; [exact Hv' |]. split; [exact Hf' |]. split; [reflexivity |].
  exact (Hok eq_refl).
Defined.

(** C5.  Every call of [initBuffers] creates exactly one buffer, binds it to
    [ARRAY_BUFFER], uploads exactly the eight binary32 values
    [-1, 1, 1, 1, -1, -1, 1, -1] with the [STATIC_DRAW] hint, and returns an
    object with exactly one property, [position], that holds the buffer. *)
Theorem initBuffers_uploads_the_square (w : World) :
  let buffer := next_handle w in
  exists buffers w',
    initBuffers w = (Normal buffers, w') /\
    issued initBuffers w =
      [GL_createBuffer buffer;
       GL_bindBuffer ARRAY_BUFFER (VGL buffer);
       GL_bufferData ARRAY_BUFFER
         [neg_one; one; one; one; neg_one; neg_one; one; neg_one] STATIC_DRAW] /\
    select is_createBuffer (issued initBuffers w) = [GL_createBuffer buffer] /\
    exists fields,
      heap w' !! buffers = Some (Obj fields) /\
      fields = {["position" := VGL buffer]} /\ size fields = 1.
Proof.
  cbv zeta. pose proof (initBuffers_run w) as E. cbv zeta in E.
  assert (Hi : issued initBuffers w =
               [GL_createBuffer (next_handle w);
                GL_bindBuffer ARRAY_BUFFER (VGL (next_handle w));
                GL_bufferData ARRAY_BUFFER positions STATIC_DRAW]).
  { apply issued_eq. rewrite E. reflexivity. }
  do 2 eexists. split; [exact E |]. split; [exact Hi |].
  split; [rewrite Hi; reflexivity |].
  eexists. split; [cbn [heap]; apply lookup_insert_eq |].
  split; [reflexivity | apply map_size_singleton].
Qed.

(** C6.  In every run of part_000 in which initialisation succeeds (so that
    [drawScene] is reached), the script completes and the calls it issues
    hold exactly one [drawArrays], with mode [TRIANGLE_STRIP], first vertex 0
    and vertex count 4. *)
Theorem script_draws_one_triangle_strip (host : Host) (w : World) (p : Handle) :
  fst (initShaderProgram host vertexShader fragmentShader w) = Normal p ->
  fst (script host w) = Normal tt /\
  select is_drawArrays (issued (script host) w) = [GL_drawArrays TRIANGLE_STRIP 0 4].
Proof.
  destruct (initShaderProgram host vertexShader fragmentShader w)
    as [c w1] eqn:Hinit.
  cbn [fst]. intros ->.
  destruct (script_success host w w1 p Hinit) as [Hn Hc]. cbv zeta in Hc.
  destruct (initShaderProgram_run host vertexShader fragmentShader w)
    as (l0 & Hc0 & Hd0 & Hu0 & _).
  rewrite Hinit in Hc0. cbn [snd] in Hc0. rewrite Hc0, <- app_assoc in Hc.
  split; [exact Hn |].
  rewrite (issued_eq _ _ _ Hc), !select_app, Hd0. reflexivity.
Qed.

Lemma script_draws_one_triangle_strip_witness :
  fst (initShaderProgram friendly_host vertexShader fragmentShader initial_world)
    = Normal 2 /\
  fst (script friendly_host initial_world) = Normal tt /\
  select is_drawArrays (issued (script friendly_host) initial_world)
    = [GL_drawArrays TRIANGLE_STRIP 0 4].
Proof.
  split; [vm_compute; reflexivity |].
  apply (script_draws_one_triangle_strip friendly_host initial_world 2).
  vm_compute; reflexivity.
Defined.

(** C7.  In every call of [drawScene] the matrix uploaded by the second
    [uniformMatrix4fv], the one for the model-view uniform, is the 4x4
    identity translated by (0, 0, -6): the identity in every element except
    the z component of the translation column, which is -6; it is uploaded
    without transposition.  A call that completes does upload it, and in a
    run of part_000 it goes to the location of [uModelViewMatrix]. *)
Theorem drawScene_uploads_translated_identity (host : Host) (pi bufs : Value)
    (w : World) :
  (forall c,
     select is_uniformMatrix4fv (issued (drawScene host pi bufs) w) !! 1 = Some c ->
     exists location, c = GL_uniformMatrix4fv location false identity_translated_z) /\
  (fst (drawScene host pi bufs w) = Normal tt ->
   exists location,
     select is_uniformMatrix4fv (issued (drawScene host pi bufs) w) !! 1 =
       Some (GL_uniformMatrix4fv location false identity_translated_z)) /\
  (forall p,
     fst (initShaderProgram host vertexShader fragmentShader w) = Normal p ->
     let asked :=
       calls (snd (initShaderProgram host vertexShader fragmentShader w)) ++
       [GL_getAttribLocation p "aVertexPosition";
        GL_getUniformLocation p "uProjectionMatrix"] in
     select is_uniformMatrix4fv (issued (script host) w) !! 1 =
       Some (GL_uniformMatrix4fv
               (location_value (uniform_location host asked p "uModelViewMatrix"))
               false identity_translated_z)).
Proof.
  destruct (drawScene_issued host pi bufs w)
    as (k & position & vp & vp' & program & pl & mvl & cl & Hi & Hk & Hn).
  rewrite Hi. unfold drawScene_calls. rewrite translate_identity.
  split; [| split].
  - intros c Hc.
    assert (Hcases : k = 5 \/ k = 6 \/ k = 7 \/ k = 8 \/ k = 9 \/ k = 10 \/
                     k = 11 \/ k = 12 \/ k = 13) by lia.
    repeat (destruct Hcases as [-> | Hcases]); [.. | subst k];
      cbn in Hc; try discriminate;
      injection Hc as <-; eexists; reflexivity.
  - intros Hnormal. apply Hn in Hnormal. subst k. eexists. reflexivity.
  - intros p. destruct (initShaderProgram host vertexShader fragmentShader w)
      as [c w1] eqn:Hinit.
    cbn [fst snd]. intros ->. cbv zeta.
    destruct (script_success host w w1 p Hinit) as [_ Hc]. cbv zeta in Hc.
    destruct (initShaderProgram_run host vertexShader fragmentShader w)
      as (l0 & Hc0 & Hd0 & Hu0 & _).
    rewrite Hinit in Hc0. cbn [snd] in Hc0.
    replace (calls w1 ++ [GL_getAttribLocation p "aVertexPosition";
                          GL_getUniformLocation p "uProjectionMatrix"])
      with ((calls w1 ++ [GL_getAttribLocation p "aVertexPosition"]) ++
            [GL_getUniformLocation p "uProjectionMatrix"])
      by (rewrite <- app_assoc; reflexivity).
    set (location := location_value
                       (uniform_location host _ p "uModelViewMatrix")) in *.
    rewrite Hc0, <- app_assoc in Hc.
    rewrite (issued_eq _ _ _ Hc), !select_app.
    unfold drawScene_calls. rewrite translate_identity, Hu0. reflexivity.
Qed.

Lemma drawScene_uploads_translated_identity_witness :
  fst (drawScene friendly_host (VRef 2) (VRef 4) ready_world) = Normal tt /\
  exists location,
    select is_uniformMatrix4fv
      (issued (drawScene friendly_host (VRef 2) (VRef 4)) ready_world) !! 1 =
      Some (GL_uniformMatrix4fv location false identity_translated_z).
Proof.
  assert (Hn : fst (drawScene friendly_host (VRef 2) (VRef 4) ready_world)
               = Normal tt) by (vm_compute; reflexivity).
  split; [exact Hn |].
  exact (proj1 (proj2 (drawScene_uploads_translated_identity friendly_host
                         (VRef 2) (VRef 4) ready_world)) Hn).
Defined.

(** C8.  Every call of [drawScene] starts with these five calls, in this
    order: clear colour opaque black, clear depth 1.0, depth test enabled,
    depth function less-than-or-equal, colour and depth buffers cleared.  Any
    draw call it issues comes after them. *)
Theorem drawScene_clears_first (host : Host) (pi bufs : Value) (w : World) :
  (exists rest,
     issued (drawScene host pi bufs) w =
       [GL_clearColor zero zero zero one;
        GL_clearDepth one;
        GL_enable DEPTH_TEST;
        GL_depthFunc LEQUAL;
        GL_clear (Z.lor COLOR_BUFFER_BIT DEPTH_BUFFER_BIT)] ++ rest) /\
  (forall i c,
     issued (drawScene host pi bufs) w !! i = Some c ->
     is_drawArrays c = true -> 5 <= i).
Proof.
  destruct (drawScene_issued host pi bufs w)
    as (k & position & vp & vp' & program & pl & mvl & cl & Hi & Hk & _).
  rewrite Hi. unfold drawScene_calls.
  rewrite take_app_ge by (cbn; lia). cbn [length clear_calls].
  split; [eexists; reflexivity |].
  intros i c Hc Hd.
  destruct (Nat.lt_ge_cases i 5) as [Hlt | Hge]; [| exact Hge].
  exfalso. rewrite lookup_app_l in Hc by (cbn; lia).
  do 5 (destruct i as [| i]; [cbn in Hc; injection Hc as <-; discriminate |]).
  lia.
Qed.

Lemma drawScene_clears_first_witness :
  issued (drawScene friendly_host (VRef 2) (VRef 4)) ready_world !! 12
    = Some (GL_drawArrays TRIANGLE_STRIP 0 4) /\
  is_drawArrays (GL_drawArrays TRIANGLE_STRIP 0 4) = true /\
  5 <= 12.
Proof.
  assert (H : issued (drawScene friendly_host (VRef 2) (VRef 4)) ready_world !! 12
              = Some (GL_drawArrays TRIANGLE_STRIP 0 4))
    by (vm_compute; reflexivity).
  split; [exact H |]. split; [reflexivity |].
  exact (proj2 (drawScene_clears_first friendly_host (VRef 2) (VRef 4)
                  ready_world) 12 _ H eq_refl).
Defined.

(** C9.  When [initShaderProgram] fails after a shader has compiled, no
    compiled shader is deleted: if the fragment shader is rejected, the only
    [deleteShader] of the call is for that fragment shader object, which is
    not the vertex shader; if both shaders compile, there is no
    [deleteShader] at all, whether linking fails or not. *)
Theorem initShaderProgram_deletes_only_the_rejected_shader (host : Host)
    (vs fs : string) (w w1 : World) (v : Handle) :
  loadShaders host VERTEX_SHADER vs w = (Normal v, w1) ->
  (forall e w2,
     loadShaders host FRAGMENT_SHADER fs w1 = (Throw e, w2) ->
     fst (initShaderProgram host vs fs w) = Throw e /\
     select is_deleteShader (issued (initShaderProgram host vs fs) w)
       = [GL_deleteShader (next_handle w1)] /\
     next_handle w1 <> v) /\
  (forall f w2,
     loadShaders host FRAGMENT_SHADER fs w1 = (Normal f, w2) ->
     select is_deleteShader (issued (initShaderProgram host vs fs) w) = []).
Proof.
  intros Hv. split.
  - intros e w2 Hf.
    pose proof (initShaderProgram_fragment_rejected host vs fs w w1 w2 v e Hv Hf) as E.
    apply loadShaders_Normal in Hv as (-> & _ & ->).
    apply loadShaders_Throw in Hf as (_ & Hc & _).
    cbn [next_handle calls] in Hc |- *.
    split; [rewrite E; reflexivity |]. split; [| lia].
    rewrite (issued_eq (initShaderProgram host vs fs) w
               (compile_calls VERTEX_SHADER (next_handle w) vs ++
                [GL_getShaderParameter (next_handle w) COMPILE_STATUS] ++
                compile_calls FRAGMENT_SHADER (S (next_handle w)) fs ++
                [GL_getShaderParameter (S (next_handle w)) COMPILE_STATUS;
                 GL_getShaderInfoLog (S (next_handle w));
                 GL_deleteShader (S (next_handle w))])).
    + reflexivity.
    + rewrite E. cbn [snd]. rewrite Hc, <- !app_assoc. reflexivity.
  - intros f w2 Hf.
    pose proof (initShaderProgram_linking host vs fs w w1 w2 v f Hv Hf) as E.
    cbv zeta in E.
    apply loadShaders_Normal in Hv as (-> & _ & ->).
    apply loadShaders_Normal in Hf as (-> & _ & ->).
    cbn [next_handle calls heap next_ref console random_draws] in E.
    destruct (program_parameter host _ _ LINK_STATUS).
    + rewrite (issued_eq (initShaderProgram host vs fs) w
                 (compile_calls VERTEX_SHADER (next_handle w) vs ++
                  [GL_getShaderParameter (next_handle w) COMPILE_STATUS] ++
                  compile_calls FRAGMENT_SHADER (S (next_handle w)) fs ++
                  [GL_getShaderParameter (S (next_handle w)) COMPILE_STATUS] ++
                  link_calls (S (S (next_handle w))) (next_handle w)
                    (S (next_handle w)) ++
                  [GL_getProgramParameter (S (S (next_handle w))) LINK_STATUS])).
      * reflexivity.
      * rewrite E. cbn [snd calls]. rewrite <- !app_assoc. reflexivity.
    + rewrite (issued_eq (initShaderProgram host vs fs) w
                 (compile_calls VERTEX_SHADER (next_handle w) vs ++
                  [GL_getShaderParameter (next_handle w) COMPILE_STATUS] ++
                  compile_calls FRAGMENT_SHADER (S (next_handle w)) fs ++
                  [GL_getShaderParameter (S (next_handle w)) COMPILE_STATUS] ++
                  link_calls (S (S (next_handle w))) (next_handle w)
                    (S (next_handle w)) ++
                  [GL_getProgramParameter (S (S (next_handle w))) LINK_STATUS;
                   GL_getProgramInfoLog (S (S (next_handle w)))])).
      * reflexivity.
      * rewrite E. cbn [snd calls]. rewrite <- !app_assoc. reflexivity.
Qed.

Lemma initShaderProgram_deletes_only_the_rejected_shader_witness :
  let w1 := mkWorld (compile_calls VERTEX_SHADER 0 vertexShader ++
                       [GL_getShaderParameter 0 COMPILE_STATUS]) 1 ∅ 0 [] 0 in
  let w2 := mkWorld (calls w1 ++ compile_calls FRAGMENT_SHADER 1 fragmentShader ++
                       [GL_getShaderParameter 1 COMPILE_STATUS]) 2 ∅ 0 [] 0 in
  loadShaders fragment_rejecting_host VERTEX_SHADER vertexShader initial_world
    = (Normal 0, w1) /\
  fst (loadShaders fragment_rejecting_host FRAGMENT_SHADER fragmentShader w1)
    = Throw (Error "An error occured compiling the shaders: ERROR: 0:3: undeclared identifier") /\
  select is_deleteShader
    (issued (initShaderProgram fragment_rejecting_host vertexShader fragmentShader)
       initial_world) = [GL_deleteShader 1] /\
  loadShaders unlinking_host VERTEX_SHADER vertexShader initial_world
    = (Normal 0, w1) /\
  loadShaders unlinking_host FRAGMENT_SHADER fragmentShader w1 = (Normal 1, w2) /\
  select is_deleteShader
    (issued (initShaderProgram unlinking_host vertexShader fragmentShader)
       initial_world) = [].
Proof.
  intros w1 w2.
  assert (Hv : loadShaders fragment_rejecting_host VERTEX_SHADER vertexShader
                 initial_world = (Normal 0, w1)) by (vm_compute; reflexivity).
  assert (Hv' : loadShaders unlinking_host VERTEX_SHADER vertexShader
                  initial_world = (Normal 0, w1)) by (vm_compute; reflexivity).
  assert (Hf' : loadShaders unlinking_host FRAGMENT_SHADER fragmentShader w1
                = (Normal 1, w2)) by (vm_compute; reflexivity).
  destruct (loadShaders fragment_rejecting_host FRAGMENT_SHADER fragmentShader w1)
    as [c w3] eqn:Hf.
  assert (Hc : c = Throw (Error "An error occured compiling the shaders: ERROR: 0:3: undeclared identifier")).
  { revert Hf. vm_compute. intros [= <- _]. reflexivity. }
  subst c.
  destruct (initShaderProgram_deletes_only_the_rejected_shader
              fragment_rejecting_host vertexShader fragmentShader
              initial_world w1 0 Hv) as [Hrejected _].
  destruct (Hrejected _ _ Hf) as (_ & Hdel & _).
  destruct (initShaderProgram_deletes_only_the_rejected_shader
              unlinking_host vertexShader fragmentShader
              initial_world w1 0 Hv') as [_ Hcompiled].
  split; [exact Hv |]. split; [reflexivity |]. split; [exact Hdel |].
  split; [exact Hv' |]. split; [exact Hf' |].
  exact (Hcompiled _ _ Hf').
Defined.




(** ** Further properties of the code *)

Section Threshold.

Local Open Scope Z_scope.

(** Rounding keeps a value between two thresholds [tl * 2^k] and
    [tu * 2^k] of at most 53 significant bits: a value in
    [[tl * 2^k, tu * 2^k)] rounds to a finite Number in
    [[tl * 2^k, tu * 2^k]]. *)
Lemma binary_round_aux_between (tl tu k : Z) (sx : bool) (mx ex : Z)
    (lx : location) :
  0 < tl -> tu < 2 ^ 53 -> -1074 <= k <= 971 -> ex <= k ->
  tl * 2 ^ (k - ex) <= mx < tu * 2 ^ (k - ex) ->
  exists m e, binary_round_aux prec emax sx mx ex lx = S754_finite sx m e /\
              e <= k /\ tl * 2 ^ (k - e) <= Z.pos m <= tu * 2 ^ (k - e).
Proof.
  intros Htl Htu Hk Hex Hmx. unfold binary_round_aux.
  assert (Hp0 : 0 < 2 ^ (k - ex)) by (apply Z.pow_pos_nonneg; lia).
  assert (Hmx0 : 0 <= mx) by nia.
  assert (Ht : 0 < tu < 2 ^ 53) by nia.
  destruct (shr_fexp_spec mx ex lx Hmx0) as [E1 M1]. cbv zeta in E1, M1.
  set (e1 := Z.max ex (fexp prec emax (Zdigits2 mx + ex))) in *.
  rewrite E1. set (r1 := fst (shr_fexp prec emax mx ex lx)) in *.
  assert (He1 : e1 <= k).
  { pose proof (fexp_le mx ex tu k Ht (proj1 Hk) Hex ltac:(lia)). lia. }
  assert (Hex1 : ex <= e1) by lia.
  assert (Hpow : 2 ^ (k - ex) = 2 ^ (k - e1) * 2 ^ (e1 - ex)).
  { rewrite <- Z.pow_add_r by lia. f_equal. lia. }
  assert (Hp1 : 0 < 2 ^ (e1 - ex)) by (apply Z.pow_pos_nonneg; lia).
  assert (Hm1 : tl * 2 ^ (k - e1) <= shr_m r1 < tu * 2 ^ (k - e1)).
  { rewrite M1. rewrite Hpow in Hmx. split.
    - apply Z.div_le_lower_bound; lia.
    - apply Z.div_lt_upper_bound; lia. }
  pose proof (round_nearest_even_bounds (shr_m r1) (loc_of_shr_record r1)) as Hr.
  set (m2 := round_nearest_even (shr_m r1) (loc_of_shr_record r1)) in *.
  assert (Hpk1 : 0 < 2 ^ (k - e1)) by (apply Z.pow_pos_nonneg; lia).
  assert (Hm2 : tl * 2 ^ (k - e1) <= m2 <= tu * 2 ^ (k - e1)) by lia.
  assert (Hm20 : 0 <= m2) by nia.
  destruct (shr_fexp_spec m2 e1 loc_Exact Hm20) as [E2 M2].
  cbv zeta in E2, M2.
  set (e2 := Z.max e1 (fexp prec emax (Zdigits2 m2 + e1))) in *.
  rewrite E2. set (r2 := fst (shr_fexp prec emax m2 e1 loc_Exact)) in *.
  assert (He2 : e2 <= k).
  { pose proof (fexp_le m2 e1 tu k Ht (proj1 Hk) He1 ltac:(lia)). lia. }
  assert (Hpow2 : 2 ^ (k - e1) = 2 ^ (k - e2) * 2 ^ (e2 - e1)).
  { rewrite <- Z.pow_add_r by lia. f_equal. lia. }
  assert (Hp2 : 0 < 2 ^ (e2 - e1)) by (apply Z.pow_pos_nonneg; lia).
  assert (Hpk2 : 0 < 2 ^ (k - e2)) by (apply Z.pow_pos_nonneg; lia).
  assert (Hm3 : tl * 2 ^ (k - e2) <= shr_m r2 <= tu * 2 ^ (k - e2)).
  { rewrite M2. rewrite Hpow2 in Hm2. split.
    - apply Z.div_le_lower_bound; lia.
    - apply Z.div_le_upper_bound; lia. }
  destruct (shr_m r2) as [| m3 | m3]; [nia | | nia].
  exists m3, e2. unfold emax, prec at 1.
  replace (e2 <=? 1024 - 53) with true by (symmetry; apply Z.leb_le; lia).
  repeat split; lia.
Qed.

(** Where a random value lies with respect to one half. *)
Lemma random_value_position (x : Number) :
  is_random_value x = true ->
  x = zero \/ x = below_half \/
  (exists m e, x = S754_finite false m e /\ e <= -54 /\
               Z.pos m <= 9007199254740990 * 2 ^ (- 54 - e) /\
               SFleb half x = false) \/
  (exists m, x = S754_finite false m (-53) /\
             2 ^ 52 <= Z.pos m < 2 ^ 53 /\ SFleb half x = true).
Proof.
  intros H. pose proof (is_random_value_cases x H) as Hcases.
  unfold is_random_value in H. apply andb_prop in H as [Hv _].
  destruct Hcases as [-> | (m & e & -> & He & Hm)]; [left; reflexivity |].
  right. cbn [valid_binary] in Hv. unfold bounded, canonical_mantissa in Hv.
  apply andb_prop in Hv as [Hc _]. apply Z.eqb_eq in Hc.
  unfold fexp, emin, prec, emax in Hc.
  pose proof (digits2_pos_bounds m) as [Hlo Hhi].
  set (d := Z.pos (digits2_pos m)) in *.
  assert (Hd : 0 < d) by (subst d; lia).
  assert (He53 : e <= -53).
  { destruct (Z.eq_dec e (-52)) as [-> | Hne]; [| lia].
    exfalso. change (- -52) with 52 in Hm.
    assert (d <= 52).
    { destruct (Z.le_gt_cases d 52) as [| Hgt]; [assumption |].
      assert (2 ^ 52 <= 2 ^ (d - 1)) by (apply Z.pow_le_mono_r; lia). lia. }
    lia. }
  assert (Hd53 : d <= 53) by lia.
  assert (Hm53 : Z.pos m < 2 ^ 53).
  { assert (2 ^ d <= 2 ^ 53) by (apply Z.pow_le_mono_r; lia). lia. }
  destruct (Z.eq_dec e (-53)) as [-> | Hne53].
  - right. right. exists m. split; [reflexivity |].
    assert (d = 53) by lia.
    assert (Hge : 2 ^ 52 <= Z.pos m) by (replace 52 with (d - 1) by lia; exact Hlo).
    split; [lia |].
    unfold SFleb, half. cbn [SFcompare Z.compare Pos.compare Pos.compare_cont].
    change (2 ^ 52) with (Z.pos 4503599627370496) in Hge.
    apply Z.compare_le_iff in Hge. cbn [Z.compare] in Hge.
    unfold Pos.compare in Hge.
    destruct (Pos.compare_cont Eq 4503599627370496 m);
      [reflexivity | reflexivity | contradiction].
  - assert (Hleb : SFleb half (S754_finite false m e) = false).
    { unfold SFleb, half. cbn [SFcompare].
      destruct (Z.compare_spec (-53) e) as [| |]; [lia | lia | reflexivity]. }
    destruct (Z.eq_dec e (-54)) as [-> | Hne54].
    + destruct (Z.eq_dec (Z.pos m) 9007199254740991) as [Heq | Hneq].
      * left. apply Pos2Z.inj in Heq. subst m. reflexivity.
      * right. left. exists m, (-54). split; [reflexivity |].
        split; [lia |]. split; [| exact Hleb].
        change (- 54 - -54) with 0. change (2 ^ 0) with 1.
        change (2 ^ 53) with 9007199254740992 in Hm53. lia.
    + right. left. exists m, e. split; [reflexivity |].
      split; [lia |]. split; [| exact Hleb].
      assert (2 ^ 1 <= 2 ^ (- 54 - e)) by (apply Z.pow_le_mono_r; lia).
      change (2 ^ 1) with 2 in *. change (2 ^ 53) with 9007199254740992 in Hm53.
      lia.
Qed.

(** The quotient [SFdiv] starts from when the divisor is 255. *)
Lemma SFdiv_core_255 (p : positive) (e : Z) :
  exists q e' l,
    SFdiv_core_binary prec emax (Z.pos p) e 8972014882652160 (-45) = (q, e', l) /\
    e' = Z.min (fexp prec emax (Zdigits2 (Z.pos p) + e - 8)) (e + 45) /\
    0 <= q /\
    8972014882652160 * q <= Z.pos p * 2 ^ (e + 45 - e')
      < 8972014882652160 * (q + 1).
Proof.
  unfold SFdiv_core_binary.
  change (Zdigits2 8972014882652160) with 53.
  change (53 + -45) with 8. replace (e - -45) with (e + 45) by lia.
  set (e' := Z.min (fexp prec emax (Zdigits2 (Z.pos p) + e - 8)) (e + 45)).
  assert (Hs : 0 <= e + 45 - e') by (subst e'; lia).
  set (m1 := match e + 45 - e' with
             | 0 => Z.pos p
             | Z.pos _ => Z.shiftl (Z.pos p) (e + 45 - e')
             | Z.neg _ => 0
             end).
  assert (Hm1 : m1 = Z.pos p * 2 ^ (e + 45 - e')).
  { subst m1. destruct (e + 45 - e') as [| s | s] eqn:Es.
    - cbn. lia.
    - apply Z.shiftl_mul_pow2. lia.
    - lia. }
  pose proof (Z_div_mod m1 8972014882652160 ltac:(lia)) as Hdiv.
  destruct (Z.div_eucl m1 8972014882652160) as [q r].
  destruct Hdiv as [Hq Hr].
  assert (Hps : 0 < 2 ^ (e + 45 - e')) by (apply Z.pow_pos_nonneg; lia).
  exists q, e', (new_location 8972014882652160 r).
  split; [reflexivity |]. split; [reflexivity |].
  rewrite <- Hm1. split; [nia | lia].
Qed.

(** A draw of at least one half gives the channel 1. *)
Lemma channel_of_high_draw (m : positive) :
  2 ^ 52 <= Z.pos m < 2 ^ 53 ->
  Math_round (Ndiv (Nmul (S754_finite false m (-53)) n255) n255) = one.
Proof.
  intros Hm. change (2 ^ 52) with 4503599627370496 in Hm.
  change (2 ^ 53) with 9007199254740992 in Hm.
  unfold Nmul, n255. cbn [SFmul xorb].
  assert (H53 : forall t, t < 9007199254740992 -> t < 2 ^ 53)
    by (intros t Ht; exact Ht).
  assert (Hb : 255 * 2 ^ (-1 - (-53 + -45)) <= Z.pos (m * 8972014882652160)
               < 510 * 2 ^ (-1 - (-53 + -45))).
  { change (-1 - (-53 + -45)) with 97.
    change (2 ^ 97) with 158456325028528675187087900672.
    rewrite Pos2Z.inj_mul. lia. }
  destruct (binary_round_aux_between 255 510 (-1) false
              (Z.pos (m * 8972014882652160)) (-53 + -45) loc_Exact
              ltac:(lia) (H53 510 ltac:(lia)) ltac:(lia) ltac:(lia) Hb)
    as (my & ey & -> & Hey & Hmy).
  unfold Ndiv. cbn [SFdiv xorb].
  destruct (SFdiv_core_255 my ey) as (q & e' & l & -> & He' & Hq0 & Hq).
  assert (Hp : 0 < 2 ^ (- 1 - ey)) by (apply Z.pow_pos_nonneg; lia).
  assert (Hd1 : Zdigits2 (Z.pos my) + ey <= 8).
  { assert (Hlt : Z.pos my < 2 ^ (9 + (- 1 - ey))).
    { rewrite Z.pow_add_r by lia. change (2 ^ 9) with 512. lia. }
    pose proof (Zdigits2_bound (Z.pos my) _ ltac:(lia) Hlt). lia. }
  assert (He53 : e' <= -53).
  { subst e'. unfold fexp, emin, prec, emax. lia. }
  assert (Hpow : 2 ^ (- 1 - ey) * 2 ^ (ey + 45 - e')
                 = 35184372088832 * (2 * 2 ^ (- 2 - e'))).
  { rewrite <- Z.pow_add_r by lia.
    replace (- 1 - ey + (ey + 45 - e')) with (45 + (1 + (- 2 - e'))) by lia.
    rewrite !Z.pow_add_r by lia. reflexivity. }
  assert (Hpe : 0 < 2 ^ (- 2 - e')) by (apply Z.pow_pos_nonneg; lia).
  assert (Hps : 0 < 2 ^ (ey + 45 - e')) by (apply Z.pow_pos_nonneg; lia).
  assert (Hqb : 2 * 2 ^ (-2 - e') <= q < 5 * 2 ^ (-2 - e')).
  { set (P := 2 ^ (- 2 - e')) in *. set (S := 2 ^ (ey + 45 - e')) in *.
    set (Y := 2 ^ (- 1 - ey)) in *.
    assert (H1 : 255 * (Y * S) <= Z.pos my * S) by nia.
    assert (H2 : Z.pos my * S <= 510 * (Y * S)) by nia.
    rewrite Hpow in H1, H2. lia. }
  destruct (binary_round_aux_between 2 5 (-2) false q e' l
              ltac:(lia) (H53 5 ltac:(lia)) ltac:(lia) ltac:(lia) Hqb)
    as (mz & ez & -> & Hez & Hmz).
  unfold Math_round.
  replace (0 <=? ez) with false by (symmetry; apply Z.leb_gt; lia).
  cbn [cond_Zopp].
  assert (HP : 0 < 2 ^ (- 2 - ez)) by (apply Z.pow_pos_nonneg; lia).
  replace (- ez - 1) with (1 + (- 2 - ez)) by lia.
  replace (- ez) with (2 + (- 2 - ez)) by lia.
  rewrite !Z.pow_add_r by lia. change (2 ^ 1) with 2. change (2 ^ 2) with 4.
  set (P := 2 ^ (- 2 - ez)) in *.
  assert (H1 : 1 <= (Z.pos mz + 2 * P) / (4 * P))
    by (apply Z.div_le_lower_bound; lia).
  assert (H2 : (Z.pos mz + 2 * P) / (4 * P) < 2)
    by (apply Z.div_lt_upper_bound; lia).
  replace ((Z.pos mz + 2 * P) / (4 * P)) with 1 by lia. reflexivity.
Qed.

(** A draw of at most [1/2 - 2^-53] gives the channel 0. *)
Lemma channel_of_low_draw (m : positive) (e : Z) :
  e <= -54 -> Z.pos m <= 9007199254740990 * 2 ^ (- 54 - e) ->
  Math_round (Ndiv (Nmul (S754_finite false m e) n255) n255) = zero.
Proof.
  intros He Hm.
  assert (HQ : 0 < 2 ^ (- 54 - e)) by (apply Z.pow_pos_nonneg; lia).
  unfold Nmul, n255. cbn [SFmul xorb].
  assert (H53 : forall t, 0 < t < 9007199254740992 -> 0 < t < 2 ^ 53)
    by (intros t Ht; exact Ht).
  assert (Hb : Z.pos (m * 8972014882652160)
               < 8972014882652159 * 2 ^ (-46 - (e + -45))).
  { replace (-46 - (e + -45)) with (53 + (- 54 - e)) by lia.
    rewrite Z.pow_add_r by lia. change (2 ^ 53) with 9007199254740992.
    rewrite Pos2Z.inj_mul. set (Q := 2 ^ (- 54 - e)) in *. nia. }
  destruct (binary_round_aux_bound 8972014882652159 (-46) false
              (Z.pos (m * 8972014882652160)) (e + -45) loc_Exact
              (H53 8972014882652159 ltac:(lia)) ltac:(lia) ltac:(lia)
              ltac:(lia) Hb)
    as [-> | (my & ey & -> & Hey & Hmy)]; [reflexivity |].
  unfold Ndiv. cbn [SFdiv xorb].
  destruct (SFdiv_core_255 my ey) as (q & e' & l & -> & He' & Hq0 & Hq).
  assert (Hp : 0 < 2 ^ (- 46 - ey)) by (apply Z.pow_pos_nonneg; lia).
  assert (Hd1 : Zdigits2 (Z.pos my) + ey <= 7).
  { assert (Hlt : Z.pos my < 2 ^ (53 + (- 46 - ey))).
    { rewrite Z.pow_add_r by lia. change (2 ^ 53) with 9007199254740992. lia. }
    pose proof (Zdigits2_bound (Z.pos my) _ ltac:(lia) Hlt). lia. }
  assert (He54 : e' <= -54).
  { subst e'. unfold fexp, emin, prec, emax. lia. }
  assert (Hpow : 2 ^ (- 46 - ey) * 2 ^ (ey + 45 - e')
                 = 9007199254740992 * 2 ^ (- 54 - e')).
  { rewrite <- Z.pow_add_r by lia.
    replace (- 46 - ey + (ey + 45 - e')) with (53 + (- 54 - e')) by lia.
    rewrite Z.pow_add_r by lia. reflexivity. }
  assert (Hpe : 0 < 2 ^ (- 54 - e')) by (apply Z.pow_pos_nonneg; lia).
  assert (Hps : 0 < 2 ^ (ey + 45 - e')) by (apply Z.pow_pos_nonneg; lia).
  assert (Hqb : q < 9007199254740991 * 2 ^ (-54 - e')).
  { set (R := 2 ^ (- 54 - e')) in *. set (S := 2 ^ (ey + 45 - e')) in *.
    set (Y := 2 ^ (- 46 - ey)) in *.
    assert (H1 : Z.pos my * S <= 8972014882652159 * (Y * S)) by nia.
    rewrite Hpow in H1. nia. }
  destruct (binary_round_aux_bound 9007199254740991 (-54) false q e' l
              (H53 9007199254740991 ltac:(lia)) ltac:(lia) Hq0 ltac:(lia) Hqb)
    as [-> | (mz & ez & -> & Hez & Hmz)]; [reflexivity |].
  unfold Math_round.
  replace (0 <=? ez) with false by (symmetry; apply Z.leb_gt; lia).
  cbn [cond_Zopp].
  assert (HP : 0 < 2 ^ (- 54 - ez)) by (apply Z.pow_pos_nonneg; lia).
  replace (- ez - 1) with (53 + (- 54 - ez)) by lia.
  replace (- ez) with (54 + (- 54 - ez)) by lia.
  rewrite !Z.pow_add_r by lia.
  change (2 ^ 53) with 9007199254740992. change (2 ^ 54) with 18014398509481984.
  set (P := 2 ^ (- 54 - ez)) in *.
  assert (H1 : 0 <= (Z.pos mz + 9007199254740992 * P) / (18014398509481984 * P))
    by (apply Z.div_pos; lia).
  assert (H2 : (Z.pos mz + 9007199254740992 * P) / (18014398509481984 * P) < 1)
    by (apply Z.div_lt_upper_bound; lia).
  replace ((Z.pos mz + 9007199254740992 * P) / (18014398509481984 * P)) with 0
    by lia.
  reflexivity.
Qed.

(** The channel [randomColour] computes from a draw is the coin of that
    draw. *)
Lemma channel_is_coin (x : Number) :
  is_random_value x = true ->
  Math_round (Ndiv (Nmul x n255) n255) = coin x.
Proof.
  intros H.
  destruct (random_value_position x H)
    as [-> | [-> | [(m & e & -> & He & Hm & Hleb) | (m & -> & Hm & Hleb)]]].
  - reflexivity.
  - vm_compute. reflexivity.
  - unfold coin. rewrite Hleb. apply channel_of_low_draw; assumption.
  - unfold coin. rewrite Hleb. apply channel_of_high_draw; assumption.
Qed.

End Threshold.

(** *** [randomColour] *)

(** X1.  [randomColour] takes three draws from [Math.random], in the order
    R, G, B, and each channel is 1 exactly when its draw is at least one
    half and 0 otherwise; it issues no graphics call. *)
Theorem randomColour_tosses_three_coins (host : Host) (w : World) :
  (forall n, is_random_value (Math_random host n) = true) ->
  let n := random_draws w in
  exists w',
    randomColour host w = (Normal (next_ref w), w') /\
    heap w' !! next_ref w =
      Some (Obj (<["R" := VNum (coin (Math_random host n))]>
                (<["G" := VNum (coin (Math_random host (S n)))]>
                (<["B" := VNum (coin (Math_random host (S (S n))))]> ∅)))) /\
    random_draws w' = n + 3 /\
    calls w' = calls w.
Proof.
  intros Hrandom. destruct w as [cs nh hp nr co rd]. cbv zeta. eexists.
  split; [reflexivity |].
  cbn [heap next_ref random_draws calls].
  rewrite lookup_insert_eq, <- !channel_is_coin by apply Hrandom.
  split; [reflexivity |]. split; [lia | reflexivity].
Qed.

Lemma randomColour_tosses_three_coins_witness :
  (forall n, is_random_value (Math_random friendly_host n) = true) /\
  exists w',
    randomColour friendly_host initial_world = (Normal 0, w') /\
    heap w' !! 0 =
      Some (Obj (<["R" := VNum one]> (<["G" := VNum zero]> (<["B" := VNum zero]> ∅)))) /\
    random_draws w' = 3 /\ calls w' = [].
Proof.
  assert (H : forall n, is_random_value (Math_random friendly_host n) = true).
  { intros n. cbn [Math_random friendly_host].
    destruct (n mod 3) as [| [| ?]]; reflexivity. }
  split; [exact H |].
  exact (randomColour_tosses_three_coins friendly_host initial_world H).
Defined.

(** *** [initShaderProgram] *)

(** All the paths of [initShaderProgram], by what the context answers. *)
Lemma initShaderProgram_paths (host : Host) (vs fs : string) (w : World) :
  let v := next_handle w in
  let f := S v in
  let p := S f in
  let a1 := calls w ++ compile_calls VERTEX_SHADER v vs in
  let c1 := a1 ++ [GL_getShaderParameter v COMPILE_STATUS] in
  let a2 := c1 ++ compile_calls FRAGMENT_SHADER f fs in
  let c2 := a2 ++ [GL_getShaderParameter f COMPILE_STATUS] in
  let a3 := c2 ++ link_calls p v f in
  let c3 := a3 ++ [GL_getProgramParameter p LINK_STATUS] in
  let mv := compile_error_prefix +:+ ToString (shader_info_log host c1 v) in
  let mf := compile_error_prefix +:+ ToString (shader_info_log host c2 f) in
  let ml := link_error_prefix +:+ ToString (program_info_log host c3 p) in
  initShaderProgram host vs fs w =
    if shader_parameter host a1 v COMPILE_STATUS then
      if shader_parameter host a2 f COMPILE_STATUS then
        if program_parameter host a3 p LINK_STATUS then
          (Normal p,
           mkWorld c3 (S p) (heap w) (next_ref w) (console w) (random_draws w))
        else
          (Throw (Error ml),
           mkWorld (a3 ++ [GL_getProgramParameter p LINK_STATUS;
                           GL_getProgramInfoLog p])
             (S p) (heap w) (next_ref w) (console w ++ [ml]) (random_draws w))
      else
        (Throw (Error mf),
         mkWorld (a2 ++ [GL_getShaderParameter f COMPILE_STATUS;
                         GL_getShaderInfoLog f; GL_deleteShader f])
           (S f) (heap w) (next_ref w) (console w ++ [mf]) (random_draws w))
    else
      (Throw (Error mv),
       mkWorld (a1 ++ [GL_getShaderParameter v COMPILE_STATUS;
                       GL_getShaderInfoLog v; GL_deleteShader v])
         (S v) (heap w) (next_ref w) (console w ++ [mv]) (random_draws w)).
Proof.
  cbv zeta.
  pose proof (loadShaders_run host VERTEX_SHADER vs w) as Ev. cbv zeta in Ev.
  destruct (shader_parameter host _ (next_handle w) COMPILE_STATUS).
  - set (w1 := mkWorld _ _ _ _ _ _) in Ev.
    pose proof (loadShaders_run host FRAGMENT_SHADER fs w1) as Ef.
    cbv zeta in Ef. subst w1.
    cbn [next_handle calls heap next_ref console random_draws] in Ef.
    destruct (shader_parameter host _ (S (next_handle w)) COMPILE_STATUS).
    + pose proof (initShaderProgram_linking host vs fs w _ _ _ _ Ev Ef) as E.
      cbv zeta in E.
      cbn [next_handle calls heap next_ref console random_draws] in E.
      exact E.
    + exact (initShaderProgram_fragment_rejected host vs fs w _ _ _ _ Ev Ef).
  - exact (initShaderProgram_vertex_rejected host vs fs w _ _ Ev).
Qed.

(** X2.  When the vertex shader is rejected, [initShaderProgram] stops
    there: it throws the compile error of the vertex shader, and its calls
    are those of that one [loadShaders]; the fragment source is never
    submitted and no program is created. *)
Theorem initShaderProgram_stops_at_rejected_vertex_shader (host : Host)
    (vs fs : string) (w : World) :
  let v := next_handle w in
  let asked := calls w ++ compile_calls VERTEX_SHADER v vs in
  shader_parameter host asked v COMPILE_STATUS = false ->
  fst (initShaderProgram host vs fs w) =
    Throw (Error (compile_error_prefix +:+
                  ToString (shader_info_log host
                              (asked ++ [GL_getShaderParameter v COMPILE_STATUS]) v))) /\
  issued (initShaderProgram host vs fs) w =
    compile_calls VERTEX_SHADER v vs ++
    [GL_getShaderParameter v COMPILE_STATUS; GL_getShaderInfoLog v;
     GL_deleteShader v] /\
  select is_createShader (issued (initShaderProgram host vs fs) w)
    = [GL_createShader VERTEX_SHADER v] /\
  select is_createProgram (issued (initShaderProgram host vs fs) w) = [].
Proof.
  cbv zeta. intros Hs.
  pose proof (initShaderProgram_paths host vs fs w) as E. cbv zeta in E.
  rewrite Hs in E.
  assert (Hi : issued (initShaderProgram host vs fs) w =
               compile_calls VERTEX_SHADER (next_handle w) vs ++
               [GL_getShaderParameter (next_handle w) COMPILE_STATUS;
                GL_getShaderInfoLog (next_handle w);
                GL_deleteShader (next_handle w)]).
  { apply issued_eq. rewrite E. cbn [snd calls]. rewrite <- app_assoc. reflexivity. }
  rewrite Hi, E. repeat split.
Qed.

Lemma initShaderProgram_stops_at_rejected_vertex_shader_witness :
  shader_parameter rejecting_host
    (calls initial_world ++ compile_calls VERTEX_SHADER 0 vertexShader) 0
    COMPILE_STATUS = false /\
  fst (initShaderProgram rejecting_host vertexShader fragmentShader initial_world)
    = Throw (Error "An error occured compiling the shaders: ERROR: 0:1: syntax error") /\
  select is_createShader
    (issued (initShaderProgram rejecting_host vertexShader fragmentShader)
       initial_world) = [GL_createShader VERTEX_SHADER 0].
Proof.
  destruct (initShaderProgram_stops_at_rejected_vertex_shader rejecting_host
              vertexShader fragmentShader initial_world eq_refl)
    as (Hthrow & _ & Hcreate & _).
  split; [reflexivity |]. split; [exact Hthrow | exact Hcreate].
Defined.

(** X3.  On a graphics context: whenever [initShaderProgram] throws an
    [Error], its message starts with one of the two prefixes and has been
    printed with [console.error] exactly once; whenever it returns, nothing
    was printed, the program is the third object created and three objects
    were created in all. *)
Theorem initShaderProgram_prints_what_it_throws (host : Host) (vs fs : string)
    (w : World) :
  (forall message,
     fst (initShaderProgram host vs fs w) = Throw (Error message) ->
     console (snd (initShaderProgram host vs fs w)) = console w ++ [message] /\
     exists text, message = compile_error_prefix +:+ text \/
                  message = link_error_prefix +:+ text) /\
  (forall p,
     fst (initShaderProgram host vs fs w) = Normal p ->
     console (snd (initShaderProgram host vs fs w)) = console w /\
     p = S (S (next_handle w)) /\
     next_handle (snd (initShaderProgram host vs fs w)) = S p).
Proof.
  pose proof (initShaderProgram_paths host vs fs w) as E. cbv zeta in E.
  rewrite E.
  destruct (shader_parameter host _ (next_handle w) COMPILE_STATUS);
    [destruct (shader_parameter host _ (S (next_handle w)) COMPILE_STATUS);
     [destruct (program_parameter host _ _ LINK_STATUS) |] |];
    cbn [fst snd console next_handle]; split; intros ? [=]; subst; eauto.
Qed.

Lemma initShaderProgram_prints_what_it_throws_witness :
  (fst (initShaderProgram rejecting_host vertexShader fragmentShader initial_world)
     = Throw (Error "An error occured compiling the shaders: ERROR: 0:1: syntax error") /\
   console (snd (initShaderProgram rejecting_host vertexShader fragmentShader
                   initial_world))
     = ["An error occured compiling the shaders: ERROR: 0:1: syntax error"]) /\
  (fst (initShaderProgram friendly_host vertexShader fragmentShader initial_world)
     = Normal 2 /\
   console (snd (initShaderProgram friendly_host vertexShader fragmentShader
                   initial_world)) = [] /\
   next_handle (snd (initShaderProgram friendly_host vertexShader fragmentShader
                       initial_world)) = 3).
Proof.
  assert (Ht : fst (initShaderProgram rejecting_host vertexShader fragmentShader
                      initial_world)
               = Throw (Error "An error occured compiling the shaders: ERROR: 0:1: syntax error"))
    by (vm_compute; reflexivity).
  assert (Hn : fst (initShaderProgram friendly_host vertexShader fragmentShader
                      initial_world) = Normal 2) by (vm_compute; reflexivity).
  split.
  - split; [exact Ht |].
    exact (proj1 (proj1 (initShaderProgram_prints_what_it_throws rejecting_host
                           vertexShader fragmentShader initial_world) _ Ht)).
  - split; [exact Hn |].
    destruct (proj2 (initShaderProgram_prints_what_it_throws friendly_host
                       vertexShader fragmentShader initial_world) 2 Hn)
      as (Hco & _ & Hnh).
    split; [exact Hco | exact Hnh].
Defined.

(** X4.  When [initShaderProgram] returns, its calls are exactly: the
    vertex shader created, sourced, compiled and checked; the same for the
    fragment shader; the program created; the vertex shader attached, then
    the fragment shader; the program linked and checked.  The three objects
    are distinct. *)
Theorem initShaderProgram_success_trace (host : Host) (vs fs : string)
    (w : World) (p : Handle) :
  fst (initShaderProgram host vs fs w) = Normal p ->
  let v := next_handle w in
  let f := S v in
  p = S f /\
  issued (initShaderProgram host vs fs) w =
    [GL_createShader VERTEX_SHADER v; GL_shaderSource v vs; GL_compileShader v;
     GL_getShaderParameter v COMPILE_STATUS;
     GL_createShader FRAGMENT_SHADER f; GL_shaderSource f fs; GL_compileShader f;
     GL_getShaderParameter f COMPILE_STATUS;
     GL_createProgram p; GL_attachShader p v; GL_attachShader p f;
     GL_linkProgram p; GL_getProgramParameter p LINK_STATUS].
Proof.
  cbv zeta. intros Hn.
  pose proof (initShaderProgram_paths host vs fs w) as E. cbv zeta in E.
  destruct (shader_parameter host _ (next_handle w) COMPILE_STATUS);
    [destruct (shader_parameter host _ (S (next_handle w)) COMPILE_STATUS);
     [destruct (program_parameter host _ _ LINK_STATUS) |] |];
    rewrite E in Hn; cbn [fst] in Hn; try discriminate.
  injection Hn as <-. split; [reflexivity |].
  apply issued_eq. rewrite E. cbn [snd calls].
  unfold compile_calls, link_calls. rewrite <- !app_assoc. reflexivity.
Qed.

Lemma initShaderProgram_success_trace_witness :
  fst (initShaderProgram friendly_host vertexShader fragmentShader initial_world)
    = Normal 2 /\
  issued (initShaderProgram friendly_host vertexShader fragmentShader)
    initial_world =
    [GL_createShader VERTEX_SHADER 0; GL_shaderSource 0 vertexShader;
     GL_compileShader 0; GL_getShaderParameter 0 COMPILE_STATUS;
     GL_createShader FRAGMENT_SHADER 1; GL_shaderSource 1 fragmentShader;
     GL_compileShader 1; GL_getShaderParameter 1 COMPILE_STATUS;
     GL_createProgram 2; GL_attachShader 2 0; GL_attachShader 2 1;
     GL_linkProgram 2; GL_getProgramParameter 2 LINK_STATUS].
Proof.
  assert (H : fst (initShaderProgram friendly_host vertexShader fragmentShader
                     initial_world) = Normal 2) by (vm_compute; reflexivity).
  split; [exact H |].
  exact (proj2 (initShaderProgram_success_trace friendly_host vertexShader
                  fragmentShader initial_world 2 H)).
Defined.

(** *** [drawScene] *)

Lemma get_prop_outcomes (v : Value) (name : string) (w : World) :
  (nullish v = true /\ get_prop v name w = (Throw (read_error name), w)) \/
  (nullish v = false /\ exists v', get_prop v name w = (Normal v', w)).
Proof.
  destruct v; cbn; eauto.
  unfold bind, load. cbn. right. split; [reflexivity |].
  destruct (heap w !! l) as [[fields | elems] |]; cbn; eauto.
Qed.

Ltac read_outcome_in E :=
  match type of E with
  | context [get_prop (VRef ?l) ?n ?w] =>
      erewrite (get_prop_Obj l n w) in E by find_in_heap
  | context [get_prop ?v ?n ?w] =>
      let v' := fresh "v" in
      let H := fresh "H" in
      let N := fresh "N" in
      destruct (get_prop_outcomes v n w) as [[N H] | [N [v' H]]];
      rewrite H in E; clear H
  end.

Ltac failed_at k :=
  exists k; do 7 eexists;
  split; [rewrite <- !app_assoc; reflexivity | lia].

(** Every failing run of [drawScene]: the error is that of a property read
    and at most the first eleven calls were issued. *)
Lemma drawScene_failure (host : Host) (pi bufs : Value) (w : World)
    (e : JSError) :
  fst (drawScene host pi bufs w) = Throw e ->
  (exists name, e = read_error name) /\
  exists (k : nat) (position vp vp' program pl mvl cl : Value),
    calls (snd (drawScene host pi bufs w)) =
      calls w ++ take k (drawScene_calls host (random_draws w)
                           position vp vp' program pl mvl cl) /\
    5 <= k <= 11.
Proof.
  destruct w as [cs nh hp nr co rd].
  remember (drawScene host pi bufs (mkWorld cs nh hp nr co rd)) as res eqn:E.
  unfold drawScene in E. step_in E.
  repeat (read_outcome_in E; step_in E).
  all: subst res; cbn [fst snd calls random_draws]; intros Hthrow;
    try discriminate; injection Hthrow as <-;
    (split; [eexists; reflexivity |]).
  all: first [ failed_at 5 | failed_at 6 | failed_at 7 | failed_at 8
             | failed_at 9 | failed_at 10 | failed_at 11 ].
  Unshelve. all: exact VUndefined.
Qed.

(** X5.  [drawScene] fails only with the [TypeError] of a property read off
    [undefined] or [null], and a call that fails has issued no [drawArrays]
    and no [uniform3f]: nothing is drawn and no colour is uploaded. *)
Theorem drawScene_fails_before_drawing (host : Host) (pi bufs : Value)
    (w : World) (e : JSError) :
  fst (drawScene host pi bufs w) = Throw e ->
  (exists name, e = read_error name) /\
  select is_drawArrays (issued (drawScene host pi bufs) w) = [] /\
  select is_uniform3f (issued (drawScene host pi bufs) w) = [].
Proof.
  intros Hthrow.
  destruct (drawScene_failure host pi bufs w e Hthrow)
    as (Hname & k & position & vp & vp' & program & pl & mvl & cl & Hc & Hk).
  split; [exact Hname |].
  rewrite (issued_eq _ _ _ Hc).
  assert (Hcases : k = 5 \/ k = 6 \/ k = 7 \/ k = 8 \/ k = 9 \/ k = 10 \/ k = 11)
    by lia.
  repeat (destruct Hcases as [-> | Hcases]); [.. | subst k]; split; reflexivity.
Qed.

Lemma drawScene_fails_before_drawing_witness :
  fst (drawScene friendly_host VUndefined (VRef 4) ready_world)
    = Throw (read_error "attribLocations") /\
  select is_drawArrays
    (issued (drawScene friendly_host VUndefined (VRef 4)) ready_world) = [] /\
  select is_uniform3f
    (issued (drawScene friendly_host VUndefined (VRef 4)) ready_world) = [].
Proof.
  assert (H : fst (drawScene friendly_host VUndefined (VRef 4) ready_world)
              = Throw (read_error "attribLocations")) by (vm_compute; reflexivity).
  split; [exact H |].
  exact (proj2 (drawScene_fails_before_drawing friendly_host VUndefined (VRef 4)
                  ready_world _ H)).
Defined.

Lemma get_prop_nullish (v : Value) (name : string) (w : World) :
  nullish v = true -> get_prop v name w = (Throw (read_error name), w).
Proof. destruct v; try discriminate; reflexivity. Qed.

Lemma ready_world_closed : heap_closed ready_world.
Proof.
  intros l Hl. cbn [next_ref ready_world] in Hl. cbn [heap ready_world].
  rewrite !lookup_insert_ne by lia. apply lookup_empty.
Qed.

(** Reading a property depends on the heap alone. *)
Lemma get_prop_same_heap (v : Value) (name : string) (w1 w2 : World) :
  heap w1 = heap w2 -> fst (get_prop v name w1) = fst (get_prop v name w2).
Proof.
  intros H. destruct v; try reflexivity.
  apply get_prop_same_object. rewrite H. reflexivity.
Qed.

(** Arrays allocated at free references do not change what a property
    read yields. *)
Lemma get_prop_fresh_arrays (v : Value) (name : string) (w1 w2 : World) :
  (forall l : Ref,
     heap w2 !! l = heap w1 !! l \/
     (heap w1 !! l = None /\ exists elems, heap w2 !! l = Some (Float32Array elems))) ->
  fst (get_prop v name w2) = fst (get_prop v name w1).
Proof.
  intros H. destruct v; try reflexivity.
  destruct (H l) as [Hsame | (Hnone & elems & Harr)].
  - apply get_prop_same_object. exact Hsame.
  - unfold get_prop, bind, load. unfold Ref in *. rewrite Hnone, Harr. reflexivity.
Qed.

(** X6.  With [buffers] undefined or null, [drawScene] clears the screen,
    issues nothing else and throws; with [buffers] given but [programInfo]
    undefined or null, it clears the screen, binds the value of
    [buffers.position], issues nothing else and throws.  The value bound is
    what [buffers.position] reads after the call and, in a heap with no
    object beyond its allocation mark, what it read before the call. *)
Theorem drawScene_with_missing_argument (host : Host) (pi bufs : Value)
    (w : World) :
  (nullish bufs = true ->
     fst (drawScene host pi bufs w) = Throw (read_error "position") /\
     issued (drawScene host pi bufs) w = clear_calls) /\
  (nullish bufs = false -> nullish pi = true ->
     fst (drawScene host pi bufs w) = Throw (read_error "attribLocations") /\
     exists position,
       issued (drawScene host pi bufs) w =
         clear_calls ++ [GL_bindBuffer ARRAY_BUFFER position] /\
       fst (get_prop bufs "position" (snd (drawScene host pi bufs w)))
         = Normal position /\
       (heap_closed w -> fst (get_prop bufs "position" w) = Normal position)).
Proof.
  destruct w as [cs nh hp nr co rd].
  assert (E : drawScene host pi bufs (mkWorld cs nh hp nr co rd)
              = drawScene host pi bufs (mkWorld cs nh hp nr co rd))
    by reflexivity.
  unfold drawScene at 2 in E. step_in E. split.
  - intros Hb. rewrite (get_prop_nullish bufs _ _ Hb) in E. step_in E.
    rewrite (issued_eq (drawScene host pi bufs) (mkWorld cs nh hp nr co rd)
               clear_calls).
    + rewrite E. split; reflexivity.
    + rewrite E. cbn [snd calls]. rewrite <- !app_assoc. reflexivity.
  - intros Hb Hp.
    match type of E with
    | context [get_prop bufs "position" ?w0] =>
        destruct (get_prop_outcomes bufs "position" w0)
          as [[N _] | [_ [position H]]]; [congruence |];
        pose proof (f_equal fst H) as Hread; cbn [fst] in Hread
    end.
    rewrite H in E. clear H. step_in E.
    rewrite (get_prop_nullish pi _ _ Hp) in E. step_in E.
    split; [rewrite E; reflexivity |].
    exists position. split; [| split].
    + apply issued_eq. rewrite E. cbn [snd calls].
      rewrite <- !app_assoc. reflexivity.
    + rewrite E. cbn [snd]. rewrite <- Hread.
      apply get_prop_same_heap. reflexivity.
    + intros Hclosed. rewrite <- Hread. symmetry.
      apply get_prop_fresh_arrays. intros l. cbn [heap].
      destruct (Nat.lt_ge_cases l nr) as [Hlt | Hge].
      * left. rewrite !lookup_insert_ne by lia. reflexivity.
      * pose proof (Hclosed l Hge) as Hnone. cbn [heap] in Hnone.
        destruct (Nat.eq_dec l nr) as [-> | Hn0].
        { right. split; [exact Hnone |].
          rewrite ?lookup_insert_ne by lia. rewrite lookup_insert_eq. eauto. }
        destruct (Nat.eq_dec l (S nr)) as [-> | Hn1].
        { right. split; [exact Hnone |].
          rewrite ?lookup_insert_ne by lia. rewrite lookup_insert_eq. eauto. }
        left. rewrite !lookup_insert_ne by lia. reflexivity.
Qed.

Lemma drawScene_with_missing_argument_witness :
  (fst (drawScene friendly_host (VRef 2) VNull ready_world)
     = Throw (read_error "position") /\
   issued (drawScene friendly_host (VRef 2) VNull) ready_world = clear_calls) /\
  (fst (drawScene friendly_host VUndefined (VRef 4) ready_world)
     = Throw (read_error "attribLocations") /\
   issued (drawScene friendly_host VUndefined (VRef 4)) ready_world =
     clear_calls ++ [GL_bindBuffer ARRAY_BUFFER (VGL 3)]).
Proof.
  split.
  - exact (proj1 (drawScene_with_missing_argument friendly_host (VRef 2) VNull
                    ready_world) eq_refl).
  - destruct (proj2 (drawScene_with_missing_argument friendly_host VUndefined
                       (VRef 4) ready_world) eq_refl eq_refl)
      as (Hthrow & position & Hi & _ & Hbefore).
    split; [exact Hthrow |].
    pose proof (Hbefore ready_world_closed) as Hp.
    assert (Hv : fst (get_prop (VRef 4) "position" ready_world) = Normal (VGL 3))
      by (vm_compute; reflexivity).
    rewrite Hv in Hp. injection Hp as <-. exact Hi.
Defined.

Ltac read_known_in E :=
  match type of E with
  | context [get_prop (VRef ?l) ?n ?w] =>
      erewrite (get_prop_Obj l n w) in E
        by (cbn [heap]; rewrite ?lookup_insert_ne by lia;
            first [apply lookup_insert_eq | eassumption])
  end.

Lemma heap_closed_lt (w : World) (l : Ref) (o : JSObject) :
  heap_closed w -> heap w !! l = Some o -> l < next_ref w.
Proof.
  intros Hclosed Ho.
  destruct (Nat.lt_ge_cases l (next_ref w)) as [| Hge]; [assumption |].
  pose proof (Hclosed l Hge) as Hnone. unfold Ref in *.
  rewrite Hnone in Ho. discriminate.
Qed.

(** A [drawScene] on objects of the expected shape, step by step. *)
Lemma drawScene_on_objects (host : Host) (w : World)
    (l lb la lu : Ref) (fields bfields afields ufields : gmap string Value) :
  heap_closed w ->
  heap w !! l = Some (Obj fields) ->
  heap w !! lb = Some (Obj bfields) ->
  fields !! "attribLocations" = Some (VRef la) ->
  heap w !! la = Some (Obj afields) ->
  fields !! "uniformLocations" = Some (VRef lu) ->
  heap w !! lu = Some (Obj ufields) ->
  fst (drawScene host (VRef l) (VRef lb) w) = Normal tt /\
  issued (drawScene host (VRef l) (VRef lb)) w =
    drawScene_calls host (random_draws w)
      (field bfields "position")
      (field afields "vertexPosition") (field afields "vertexPosition")
      (field fields "program")
      (field ufields "projectionMatrix") (field ufields "modelViewMatrix")
      (field ufields "colorMatrix") /\
  random_draws (snd (drawScene host (VRef l) (VRef lb) w)) = random_draws w + 3.
Proof.
  intros Hclosed Hl Hlb Hattr Hla Hunif Hlu.
  pose proof (heap_closed_lt w l _ Hclosed Hl) as Il.
  pose proof (heap_closed_lt w lb _ Hclosed Hlb) as Ilb.
  pose proof (heap_closed_lt w la _ Hclosed Hla) as Ila.
  pose proof (heap_closed_lt w lu _ Hclosed Hlu) as Ilu.
  destruct w as [cs nh hp nr co rd].
  cbn [heap next_ref random_draws] in *.
  assert (E : drawScene host (VRef l) (VRef lb) (mkWorld cs nh hp nr co rd)
              = drawScene host (VRef l) (VRef lb) (mkWorld cs nh hp nr co rd))
    by reflexivity.
  unfold drawScene at 2 in E. step_in E.
  repeat (read_known_in E; rewrite ?Hattr, ?Hunif in E; step_in E).
  assert (Hi : issued (drawScene host (VRef l) (VRef lb))
                 (mkWorld cs nh hp nr co rd) =
               drawScene_calls host rd
                 (field bfields "position")
                 (field afields "vertexPosition") (field afields "vertexPosition")
                 (field fields "program")
                 (field ufields "projectionMatrix")
                 (field ufields "modelViewMatrix")
                 (field ufields "colorMatrix")).
  { apply issued_eq. rewrite E. cbn [snd calls]. rewrite <- !app_assoc.
    reflexivity. }
  rewrite Hi, E. cbn [fst snd random_draws]. repeat split. lia.
Qed.

(** X7.  Given a [programInfo] object with [attribLocations] and
    [uniformLocations] objects and a [buffers] object, [drawScene] completes:
    it issues its thirteen calls with what it reads off these objects, takes
    three random draws and issues the draw.  A property that is missing
    reads as [undefined] and is passed on as such; it does not stop the
    call. *)
Theorem drawScene_reads_its_arguments (host : Host) (w : World)
    (l lb la lu : Ref) (fields bfields afields ufields : gmap string Value) :
  heap_closed w ->
  heap w !! l = Some (Obj fields) ->
  heap w !! lb = Some (Obj bfields) ->
  fields !! "attribLocations" = Some (VRef la) ->
  heap w !! la = Some (Obj afields) ->
  fields !! "uniformLocations" = Some (VRef lu) ->
  heap w !! lu = Some (Obj ufields) ->
  fst (drawScene host (VRef l) (VRef lb) w) = Normal tt /\
  issued (drawScene host (VRef l) (VRef lb)) w =
    drawScene_calls host (random_draws w)
      (field bfields "position")
      (field afields "vertexPosition") (field afields "vertexPosition")
      (field fields "program")
      (field ufields "projectionMatrix") (field ufields "modelViewMatrix")
      (field ufields "colorMatrix") /\
  random_draws (snd (drawScene host (VRef l) (VRef lb) w)) = random_draws w + 3.
Proof. exact (drawScene_on_objects host w l lb la lu fields bfields afields ufields). Qed.

Lemma drawScene_reads_its_arguments_witness :
  heap_closed ready_world /\
  fst (drawScene friendly_host (VRef 2) (VRef 4) ready_world) = Normal tt /\
  issued (drawScene friendly_host (VRef 2) (VRef 4)) ready_world =
    drawScene_calls friendly_host 0 (VGL 3) (VInt 0) (VInt 0) (VGL 2)
      (VGL 10) (VGL 11) (VGL 12).
Proof.
  split; [exact ready_world_closed |].
  destruct (drawScene_reads_its_arguments friendly_host ready_world 2 4 0 1
              (<["program" := VGL 2]>
                 (<["attribLocations" := VRef 0]>
                 (<["uniformLocations" := VRef 1]> ∅)))
              {["position" := VGL 3]}
              {["vertexPosition" := VInt 0]}
              (<["projectionMatrix" := VGL 10]>
                 (<["modelViewMatrix" := VGL 11]>
                 (<["colorMatrix" := VGL 12]> ∅)))
              ready_world_closed)
    as (Hn & Hi & _); try (vm_compute; reflexivity).
  split; [exact Hn |]. rewrite Hi. vm_compute. reflexivity.
Defined.

(** [drawScene] hands out references in order, like everything else. *)
Lemma drawScene_keeps_heap_closed (host : Host) (pi bufs : Value) (w : World) :
  heap_closed w -> heap_closed (snd (drawScene host pi bufs w)).
Proof.
  intros Hclosed. destruct w as [cs nh hp nr co rd].
  remember (drawScene host pi bufs (mkWorld cs nh hp nr co rd)) as res eqn:E.
  unfold drawScene in E. run_in E; subst res; cbn [snd].
  all: intros l' Hl'; cbn [next_ref] in Hl'; cbn [heap];
    rewrite !lookup_insert_ne by lia;
    apply (Hclosed l'); cbn [next_ref]; lia.
Qed.

(** X8.  [drawScene] can be repeated: after a call on well-formed
    arguments, a second call with the same arguments completes too, issues
    the same calls with the same buffer, program and locations, and uploads
    the colour of the next three random draws. *)
Theorem drawScene_twice (host : Host) (w : World)
    (l lb la lu : Ref) (fields bfields afields ufields : gmap string Value) :
  heap_closed w ->
  heap w !! l = Some (Obj fields) ->
  heap w !! lb = Some (Obj bfields) ->
  fields !! "attribLocations" = Some (VRef la) ->
  heap w !! la = Some (Obj afields) ->
  fields !! "uniformLocations" = Some (VRef lu) ->
  heap w !! lu = Some (Obj ufields) ->
  let w1 := snd (drawScene host (VRef l) (VRef lb) w) in
  fst (drawScene host (VRef l) (VRef lb) w1) = Normal tt /\
  issued (drawScene host (VRef l) (VRef lb)) w1 =
    drawScene_calls host (random_draws w + 3)
      (field bfields "position")
      (field afields "vertexPosition") (field afields "vertexPosition")
      (field fields "program")
      (field ufields "projectionMatrix") (field ufields "modelViewMatrix")
      (field ufields "colorMatrix") /\
  select is_drawArrays
    (issued (let* _ := drawScene host (VRef l) (VRef lb) in
             drawScene host (VRef l) (VRef lb)) w)
    = [GL_drawArrays TRIANGLE_STRIP 0 4; GL_drawArrays TRIANGLE_STRIP 0 4].
Proof.
  intros Hclosed Hl Hlb Hattr Hla Hunif Hlu. cbv zeta.
  destruct (drawScene_on_objects host w l lb la lu fields bfields
              afields ufields Hclosed Hl Hlb Hattr Hla Hunif Hlu)
    as (Hn & Hi & Hrd).
  destruct (drawScene_run host (VRef l) (VRef lb) w)
    as (k & position & vp & vp' & program & pl & mvl & cl & Hc & _ & _ & Hh & _).
  pose proof (drawScene_keeps_heap_closed host (VRef l) (VRef lb) w Hclosed)
    as Hclosed1.
  set (w1 := snd (drawScene host (VRef l) (VRef lb) w)) in *.
  assert (Hsame : forall l0 o, heap w !! l0 = Some o -> heap w1 !! l0 = Some o).
  { intros l0 o Ho. rewrite Hh by exact (heap_closed_lt w l0 o Hclosed Ho).
    exact Ho. }
  destruct (drawScene_on_objects host w1 l lb la lu fields bfields
              afields ufields Hclosed1 (Hsame _ _ Hl) (Hsame _ _ Hlb) Hattr
              (Hsame _ _ Hla) Hunif (Hsame _ _ Hlu))
    as (Hn1 & Hi1 & _).
  rewrite Hrd in Hi1. split; [exact Hn1 |]. split; [exact Hi1 |].
  rewrite (issued_eq _ w
             (issued (drawScene host (VRef l) (VRef lb)) w ++
              issued (drawScene host (VRef l) (VRef lb)) w1)).
  - rewrite select_app, Hi, Hi1. reflexivity.
  - unfold bind. destruct (drawScene host (VRef l) (VRef lb) w) as [c w1'] eqn:E.
    cbn [fst snd] in *. subst c. subst w1.
    pose proof (drawScene_issued host (VRef l) (VRef lb) w1')
      as (k1 & p1 & q1 & q1' & g1 & pl1 & mvl1 & cl1 & Hk1 & _).
    destruct (drawScene_run host (VRef l) (VRef lb) w1')
      as (k2 & p2 & q2 & q2' & g2 & pl2 & mvl2 & cl2 & Hc2 & _).
    rewrite Hc2, Hc, app_assoc.
    rewrite (issued_eq _ _ _ Hc2).
    replace (issued (drawScene host (VRef l) (VRef lb)) w)
      with (take k (drawScene_calls host (random_draws w) position vp vp'
                      program pl mvl cl)).
    + rewrite <- app_assoc. reflexivity.
    + symmetry. apply issued_eq. rewrite E. exact Hc.
Qed.

Lemma drawScene_twice_witness :
  heap_closed ready_world /\
  fst (drawScene friendly_host (VRef 2) (VRef 4)
         (snd (drawScene friendly_host (VRef 2) (VRef 4) ready_world)))
    = Normal tt /\
  select is_uniform3f
    (issued (drawScene friendly_host (VRef 2) (VRef 4))
       (snd (drawScene friendly_host (VRef 2) (VRef 4) ready_world)))
    = [GL_uniform3f (VGL 12) (VNum one) (VNum zero) (VNum zero)] /\
  select is_drawArrays
    (issued (let* _ := drawScene friendly_host (VRef 2) (VRef 4) in
             drawScene friendly_host (VRef 2) (VRef 4)) ready_world)
    = [GL_drawArrays TRIANGLE_STRIP 0 4; GL_drawArrays TRIANGLE_STRIP 0 4].
Proof.
  split; [exact ready_world_closed |].
  destruct (drawScene_twice friendly_host ready_world 2 4 0 1
              (<["program" := VGL 2]>
                 (<["attribLocations" := VRef 0]>
                 (<["uniformLocations" := VRef 1]> ∅)))
              {["position" := VGL 3]}
              {["vertexPosition" := VInt 0]}
              (<["projectionMatrix" := VGL 10]>
                 (<["modelViewMatrix" := VGL 11]>
                 (<["colorMatrix" := VGL 12]> ∅)))
              ready_world_closed)
    as (Hn & Hi & Hd); try (vm_compute; reflexivity).
  split; [exact Hn |]. split; [| exact Hd].
  rewrite Hi. vm_compute. reflexivity.
Defined.

(** *** The top level of part_000 *)

(** X9.  The script of part_000 ends as its [initShaderProgram] does: if
    that returns, the script completes; if that throws, the script stops
    with the same error in the same state, so no location is queried, no
    buffer created, no object allocated and nothing drawn. *)
Theorem script_ends_with_initShaderProgram (host : Host) (w : World) :
  match initShaderProgram host vertexShader fragmentShader w with
  | (Normal p, _) => fst (script host w) = Normal tt
  | (Throw e, w1) =>
      script host w = (Throw e, w1) /\
      heap w1 = heap w /\
      select is_createBuffer (issued (script host) w) = [] /\
      select is_drawArrays (issued (script host) w) = []
  end.
Proof.
  destruct (initShaderProgram host vertexShader fragmentShader w)
    as [[p | e] w1] eqn:Hinit.
  - exact (proj1 (script_success host w w1 p Hinit)).
  - pose proof (script_failure host w w1 e Hinit) as Hs.
    pose proof (initShaderProgram_paths host vertexShader fragmentShader w) as E.
    cbv zeta in E. rewrite Hinit in E.
    split; [exact Hs |].
    destruct (shader_parameter host _ (next_handle w) COMPILE_STATUS);
      [destruct (shader_parameter host _ (S (next_handle w)) COMPILE_STATUS);
       [destruct (program_parameter host _ _ LINK_STATUS) |] |];
      try discriminate; injection E as -> ->;
      (split; [reflexivity |]);
      match goal with
      | |- context [issued (script host) w] =>
          erewrite (issued_eq (script host) w)
            by (rewrite Hs; cbn [snd calls]; unfold compile_calls, link_calls;
                rewrite <- !app_assoc; reflexivity)
      end; split; reflexivity.
Qed.

(** X10.  In a successful run of part_000 the values flow unchanged from
    where they are made to where they are used: the buffer bound in
    [drawScene] is the one [initBuffers] created (the object created right
    after the program), the program used is the linked one, the attribute
    index and the three uniform locations passed are what the context
    returned for [aVertexPosition], [uProjectionMatrix], [uModelViewMatrix]
    and [colorMatrix], a null location included. *)
Theorem script_passes_on_what_it_got (host : Host) (w : World) (p : Handle) :
  fst (initShaderProgram host vertexShader fragmentShader w) = Normal p ->
  let ready := calls (snd (initShaderProgram host vertexShader fragmentShader w)) in
  let h1 := ready ++ [GL_getAttribLocation p "aVertexPosition"] in
  let h2 := h1 ++ [GL_getUniformLocation p "uProjectionMatrix"] in
  let h3 := h2 ++ [GL_getUniformLocation p "uModelViewMatrix"] in
  let vp := VInt (attrib_location host ready p "aVertexPosition") in
  issued (script host) w =
    issued (initShaderProgram host vertexShader fragmentShader) w ++
    setup_calls p (S p) ++
    drawScene_calls host (random_draws w) (VGL (S p)) vp vp (VGL p)
      (location_value (uniform_location host h1 p "uProjectionMatrix"))
      (location_value (uniform_location host h2 p "uModelViewMatrix"))
      (location_value (uniform_location host h3 p "colorMatrix")).
Proof.
  destruct (initShaderProgram host vertexShader fragmentShader w)
    as [c w1] eqn:Hinit.
  cbn [fst snd]. intros ->. cbv zeta.
  destruct (script_success host w w1 p Hinit) as [_ Hc]. cbv zeta in Hc.
  pose proof (initShaderProgram_paths host vertexShader fragmentShader w) as E.
  cbv zeta in E. rewrite Hinit in E.
  assert (Hw1 : next_handle w1 = S p /\ random_draws w1 = random_draws w /\
                exists l0, calls w1 = calls w ++ l0).
  { destruct (shader_parameter host _ (next_handle w) COMPILE_STATUS);
      [destruct (shader_parameter host _ (S (next_handle w)) COMPILE_STATUS);
       [destruct (program_parameter host _ _ LINK_STATUS) |] |];
      try discriminate.
    injection E as -> ->. cbn [next_handle random_draws calls].
    split; [reflexivity |]. split; [reflexivity |].
    unfold compile_calls, link_calls. rewrite <- !app_assoc. eauto. }
  destruct Hw1 as (Hnh & Hrd & l0 & Hl0).
  rewrite Hnh, Hrd in Hc.
  assert (Hi0 : issued (initShaderProgram host vertexShader fragmentShader) w = l0).
  { apply issued_eq. rewrite Hinit. exact Hl0. }
  rewrite Hi0. apply issued_eq. rewrite Hc.
  rewrite Hl0 at 1. rewrite <- app_assoc. reflexivity.
Qed.

Lemma script_passes_on_what_it_got_witness :
  fst (initShaderProgram friendly_host vertexShader fragmentShader initial_world)
    = Normal 2 /\
  issued (script friendly_host) initial_world =
    issued (initShaderProgram friendly_host vertexShader fragmentShader)
      initial_world ++
    setup_calls 2 3 ++
    drawScene_calls friendly_host 0 (VGL 3) (VInt 0) (VInt 0) (VGL 2)
      (VGL 2) (VGL 2) (VGL 2).
Proof.
  assert (H : fst (initShaderProgram friendly_host vertexShader fragmentShader
                     initial_world) = Normal 2) by (vm_compute; reflexivity).
  split; [exact H |].
  exact (script_passes_on_what_it_got friendly_host initial_world 2 H).
Defined.

(** *** The top level of main.js *)



(** X12.  In a successful run of part_000 exactly one colour is uploaded,
    to the location the context returned for [colorMatrix], and it is one of
    the eight corner colours: each channel is 1 exactly when the matching
    one of the first three random draws of the run is at least one half. *)
Theorem script_uploads_a_corner_colour (host : Host) (w : World) (p : Handle) :
  (forall n, is_random_value (Math_random host n) = true) ->
  fst (initShaderProgram host vertexShader fragmentShader w) = Normal p ->
  let n := random_draws w in
  let ready := calls (snd (initShaderProgram host vertexShader fragmentShader w)) in
  let h1 := ready ++ [GL_getAttribLocation p "aVertexPosition"] in
  let h2 := h1 ++ [GL_getUniformLocation p "uProjectionMatrix"] in
  let h3 := h2 ++ [GL_getUniformLocation p "uModelViewMatrix"] in
  select is_uniform3f (issued (script host) w) =
    [GL_uniform3f (location_value (uniform_location host h3 p "colorMatrix"))
       (VNum (coin (Math_random host n)))
       (VNum (coin (Math_random host (S n))))
       (VNum (coin (Math_random host (S (S n)))))].
Proof.
  intros Hrandom.
  destruct (initShaderProgram host vertexShader fragmentShader w)
    as [c w1] eqn:Hinit.
  cbn [fst snd]. intros ->. cbv zeta.
  destruct (script_success host w w1 p Hinit) as [_ Hc]. cbv zeta in Hc.
  pose proof (initShaderProgram_paths host vertexShader fragmentShader w) as E.
  cbv zeta in E. rewrite Hinit in E.
  assert (Hw1 : random_draws w1 = random_draws w /\
                exists l0, calls w1 = calls w ++ l0 /\
                           select is_uniform3f l0 = []).
  { destruct (shader_parameter host _ (next_handle w) COMPILE_STATUS);
      [destruct (shader_parameter host _ (S (next_handle w)) COMPILE_STATUS);
       [destruct (program_parameter host _ _ LINK_STATUS) |] |];
      try discriminate.
    injection E as _ ->. cbn [random_draws calls]. split; [reflexivity |].
    unfold compile_calls, link_calls. rewrite <- !app_assoc.
    eexists. split; reflexivity. }
  destruct Hw1 as (Hrd & l0 & Hl0 & Hu0).
  rewrite Hrd in Hc. rewrite Hl0 in Hc at 1. rewrite <- app_assoc in Hc.
  rewrite (issued_eq _ _ _ Hc), !select_app, Hu0.
  unfold drawScene_calls, channel. rewrite !channel_is_coin by apply Hrandom.
  reflexivity.
Qed.

Lemma script_uploads_a_corner_colour_witness :
  (forall n, is_random_value (Math_random friendly_host n) = true) /\
  fst (initShaderProgram friendly_host vertexShader fragmentShader initial_world)
    = Normal 2 /\
  select is_uniform3f (issued (script friendly_host) initial_world) =
    [GL_uniform3f (VGL 2) (VNum one) (VNum zero) (VNum zero)].
Proof.
  assert (H : forall n, is_random_value (Math_random friendly_host n) = true).
  { intros n. cbn [Math_random friendly_host].
    destruct (n mod 3) as [| [| ?]]; reflexivity. }
  assert (Hp : fst (initShaderProgram friendly_host vertexShader fragmentShader
                      initial_world) = Normal 2) by (vm_compute; reflexivity).
  split; [exact H |]. split; [exact Hp |].
  exact (script_uploads_a_corner_colour friendly_host initial_world 2 H Hp).
Defined.
